(** * fetch_courses.py: curriculum extraction, embedded and verified

    A shallow embedding of [fetch_courses.py]: the Python string
    operations it relies on, the BeautifulSoup tree and the navigation
    calls it makes, and the functions of the module itself
    ([get_faculty_for_course], [_extract_detail_text],
    [get_course_details], [get_program_codes], [get_latest_term],
    [map_category], [parse_table], [crawl_list], [crawl_program],
    [main]), followed by the properties proved about them.

    Modelling conventions.
    - A Python [str] is a [string]; a character is a code point below
      256 (Latin-1).  Whitespace, case folding and digits are Python's
      on that range.
    - A parsed document is a [node] tree of strings and tags; an
      element of the tree is addressed by its [path] from the root,
      which gives parents, siblings and document order.  The
      BeautifulSoup calls are modelled as the module uses them:
      [find] and [find_all] search the descendants in document order,
      a call without a filter ([find_next()], [find_next_sibling()])
      answers tags only, and [string=] tests [tag.string].  Pages
      are taken without comments, scripts and style sheets: every
      string of a tree is one that [get_text] reads.
    - An exception is a [Raise] result; [requests.get] followed by
      [raise_for_status] and the parse is the parameter [http_get],
      which answers [None] when the transport fails.  A [try] block
      whose handler assigns defaults is a match on that answer.
    - [str(tag)] is a parameter of the functions that call it;
      [str_of_tag] is the printer of BeautifulSoup with its default
      formatter.  [urllib.parse.urljoin] is a parameter that always
      answers: the [ValueError] it raises on a malformed address is
      not modelled, and what is proved of a run is proved of the
      runs in which it answers.
    - [os.makedirs] and the writing of a file are parameters of
      [main] that answer whether they raised.
    - [crawl_program] keeps a trace next to its two accumulators: the
      anchors that entered the zone pass and the batches of rows that
      reached the merge, in order.  The trace has no effect on the
      result; the properties of a run are stated on it. *)

From Stdlib Require Import Ascii String NArith.
From stdpp Require Import base option list strings gmap.

Set Warnings "-register-all".
Set Default Proof Using "Type".


Open Scope string_scope.
Open Scope list_scope.

(** ** Python strings *)

Module PyStr.

Definition code (c : ascii) : N := N_of_ascii c.

(** [str.isspace] on one character, which is also what [str.strip],
    [str.split] and the regular expression class [\s] use. *)
Definition is_space (c : ascii) : bool :=
  let n := code c in
  ((9 <=? n) && (n <=? 13) || (28 <=? n) && (n <=? 32)
   || (n =? 133) || (n =? 160))%N.

(** The regular expression class [\d]. *)
Definition is_digit (c : ascii) : bool :=
  let n := code c in ((48 <=? n) && (n <=? 57))%N.

(** The regular expression class [[A-Z]]. *)
Definition is_upper_AZ (c : ascii) : bool :=
  let n := code c in ((65 <=? n) && (n <=? 90))%N.

Definition lower_char (c : ascii) : ascii :=
  let n := code c in
  if ((65 <=? n) && (n <=? 90)
      || (192 <=? n) && (n <=? 222) && negb (n =? 215))%N
  then ascii_of_N (n + 32) else c.

(** [s.lower()] *)
Fixpoint lower (s : string) : string :=
  match s with
  | EmptyString => EmptyString
  | String c s' => String (lower_char c) (lower s')
  end.

(** [s.startswith(p)] *)
Fixpoint startswith (p s : string) : bool :=
  match p, s with
  | EmptyString, _ => true
  | String _ _, EmptyString => false
  | String a p', String b s' => Ascii.eqb a b && startswith p' s'
  end.

(** [s.endswith(p)]: some tail of [s] is [p]. *)
Fixpoint endswith (p s : string) : bool :=
  String.eqb p s
  || match s with
     | EmptyString => false
     | String _ s' => endswith p s'
     end.

(** [sub in s] *)
Fixpoint contains (sub s : string) : bool :=
  startswith sub s
  || match s with
     | EmptyString => false
     | String _ s' => contains sub s'
     end.

Definition is_empty (s : string) : bool :=
  match s with EmptyString => true | String _ _ => false end.

(** Truthiness of a string: [bool(s)]. *)
Definition truthy (s : string) : bool := negb (is_empty s).

Fixpoint lstrip (s : string) : string :=
  match s with
  | EmptyString => EmptyString
  | String c s' => if is_space c then lstrip s' else s
  end.

Fixpoint rstrip (s : string) : string :=
  match s with
  | EmptyString => EmptyString
  | String c s' =>
      match rstrip s' with
      | EmptyString => if is_space c then EmptyString else String c EmptyString
      | r => String c r
      end
  end.

(** [s.strip()] *)
Definition strip (s : string) : string := rstrip (lstrip s).

(** [s.split()]: the maximal runs of characters that are not
    whitespace; [tok] is the run being read. *)
Fixpoint split_from (tok s : string) : list string :=
  match s with
  | EmptyString => if is_empty tok then [] else [tok]
  | String c s' =>
      if is_space c
      then (if is_empty tok then split_from EmptyString s'
            else tok :: split_from EmptyString s')
      else split_from (tok +:+ String c EmptyString) s'
  end.

Definition split (s : string) : list string := split_from EmptyString s.

(** [sep.join(parts)] *)
Fixpoint join (sep : string) (parts : list string) : string :=
  match parts with
  | [] => EmptyString
  | [p] => p
  | p :: rest => p +:+ sep +:+ join sep rest
  end.

Definition nbsp : ascii := ascii_of_N 160.

(** [s.replace('\xa0', ' ')] *)
Fixpoint replace_nbsp (s : string) : string :=
  match s with
  | EmptyString => EmptyString
  | String c s' =>
      String (if Ascii.eqb c nbsp then " "%char else c) (replace_nbsp s')
  end.

Fixpoint drop_while (f : ascii -> bool) (s : string) : string :=
  match s with
  | EmptyString => EmptyString
  | String c s' => if f c then drop_while f s' else s
  end.

Definition head_is (f : ascii -> bool) (s : string) : bool :=
  match s with EmptyString => false | String c _ => f c end.

(** [re.match(r'^[A-Z]+\s*\d+', s)] as a truth value.  The three
    classes are pairwise disjoint, so the greedy reading is the only
    one: letters, then whitespace, then one digit to succeed. *)
Definition match_course_code (s : string) : bool :=
  head_is is_upper_AZ s
  && head_is is_digit (drop_while is_space (drop_while is_upper_AZ s)).

(** The text matched by [[^&]+] at the start of [s]. *)
Fixpoint take_until_amp (s : string) : string :=
  match s with
  | EmptyString => EmptyString
  | String c s' =>
      if Ascii.eqb c "&"%char then EmptyString else String c (take_until_amp s')
  end.

Fixpoint drop_chars (n : nat) (s : string) : string :=
  match n, s with
  | O, _ => s
  | S n', String _ s' => drop_chars n' s'
  | S _, EmptyString => EmptyString
  end.

(** [re.search(key + r'([^&]+)', s)]: group 1 of the leftmost match,
    [None] when there is none. *)
Fixpoint search_param (key s : string) : option string :=
  let here :=
    if startswith key s
    then (let v := take_until_amp (drop_chars (String.length key) s) in
          if is_empty v then None else Some v)
    else None in
  match here with
  | Some v => Some v
  | None =>
      match s with
      | EmptyString => None
      | String _ s' => search_param key s'
      end
  end.

End PyStr.

(** ** The BeautifulSoup tree *)

Module Soup.
Import PyStr.

(** A [NavigableString] or a [Tag] with its name, its attribute
    dictionary (first binding wins) and its contents. *)
Inductive node :=
| Text (s : string)
| Elem (name : string) (attrs : list (string * string)) (contents : list node).

(** Child indices from the node up to the root: the parent of
    [i :: p] is [p], and the root (the soup itself) is [[]]. *)
Definition path := list nat.

(** A node together with where it sits in its document. *)
Definition elt : Type := path * node.

Definition is_tag (n : node) : bool :=
  match n with Elem _ _ _ => true | Text _ => false end.

(** [getattr(n, 'name', None) == nm] *)
Definition name_is (nm : string) (n : node) : bool :=
  match n with Elem m _ _ => String.eqb m nm | Text _ => false end.

Definition contents_of (n : node) : list node :=
  match n with Elem _ _ cs => cs | Text _ => [] end.

Fixpoint assoc (k : string) (l : list (string * string)) : option string :=
  match l with
  | [] => None
  | (k', v) :: l' => if String.eqb k' k then Some v else assoc k l'
  end.

(** [tag.get(k)] *)
Definition get_attr (k : string) (n : node) : option string :=
  match n with Elem _ attrs _ => assoc k attrs | Text _ => None end.

(** [tag.descendants]: document order, the tag itself left out. *)
Fixpoint descendants (p : path) (n : node) : list elt :=
  match n with
  | Text _ => []
  | Elem _ _ cs =>
      (fix go (i : nat) (cs : list node) : list elt :=
         match cs with
         | [] => []
         | c :: cs' => (i :: p, c) :: descendants (i :: p) c ++ go (S i) cs'
         end) 0 cs
  end.

Definition descendants_of (e : elt) : list elt := descendants e.1 e.2.

Definition root (soup : node) : elt := ([], soup).

Definition all_elements (soup : node) : list elt :=
  root soup :: descendants [] soup.

Fixpoint walk (n : node) (down : list nat) : option node :=
  match down with
  | [] => Some n
  | i :: rest =>
      match contents_of n !! i with
      | Some c => walk c rest
      | None => None
      end
  end.

Definition node_at (soup : node) (p : path) : option elt :=
  match walk soup (rev p) with Some n => Some (p, n) | None => None end.

(** [e.parent] *)
Definition parent (soup : node) (e : elt) : option elt :=
  match e.1 with
  | [] => None
  | _ :: p => node_at soup p
  end.

(** [e.parents]: nearest first, the soup last. *)
Fixpoint parents_of (soup : node) (p : path) : list elt :=
  match p with
  | [] => []
  | _ :: p' => option_list (node_at soup p') ++ parents_of soup p'
  end.

Definition first_such {A} (f : A -> bool) (l : list A) : option A :=
  head (List.filter f l).

(** [e.find_parent(nm)] *)
Definition find_parent (soup : node) (nm : string) (e : elt) : option elt :=
  first_such (fun x => name_is nm x.2) (parents_of soup e.1).

Fixpoint after (p : path) (l : list elt) : list elt :=
  match l with
  | [] => []
  | x :: l' => if bool_decide (x.1 = p) then l' else after p l'
  end.

(** [e.next_elements]: everything later in document order. *)
Definition next_elements (soup : node) (e : elt) : list elt :=
  after e.1 (all_elements soup).

(** [e.find_next()] is the next tag; [e.find_next(nm)] the next tag
    of that name. *)
Definition find_next (soup : node) (e : elt) : option elt :=
  first_such (fun x => is_tag x.2) (next_elements soup e).

Definition find_next_named (soup : node) (nm : string) (e : elt) : option elt :=
  first_such (fun x => name_is nm x.2) (next_elements soup e).

Fixpoint number_from (i : nat) (p : path) (cs : list node) : list elt :=
  match cs with
  | [] => []
  | c :: cs' => (i :: p, c) :: number_from (S i) p cs'
  end.

(** [e.next_siblings]: strings and tags alike. *)
Definition next_siblings (soup : node) (e : elt) : list elt :=
  match e.1 with
  | [] => []
  | i :: p =>
      match node_at soup p with
      | Some par => number_from (S i) p (drop (S i) (contents_of par.2))
      | None => []
      end
  end.

(** [e.find_next_siblings()]: the tags among them. *)
Definition find_next_siblings (soup : node) (e : elt) : list elt :=
  List.filter (fun x => is_tag x.2) (next_siblings soup e).

(** [e.find_all(nm)] and [e.find(nm)] *)
Definition find_all (nm : string) (e : elt) : list elt :=
  List.filter (fun x => name_is nm x.2) (descendants_of e).

Definition find (nm : string) (e : elt) : option elt := head (find_all nm e).

(** [tag.string]: the only child when it is a string, the only
    child's [.string] when it is a tag, [None] otherwise. *)
Fixpoint dot_string (n : node) : option string :=
  match n with
  | Text s => Some s
  | Elem _ _ [c] => dot_string c
  | Elem _ _ _ => None
  end.

(** The filter [string=lambda s: s and f(s)] of [find]/[find_all]. *)
Definition string_matches (f : string -> bool) (n : node) : bool :=
  match n with
  | Text _ => false
  | Elem _ _ _ =>
      match dot_string n with
      | Some s => truthy s && f s
      | None => false
      end
  end.

(** [e.find(nm, string=lambda s: s and f(s))] *)
Definition find_string (nm : string) (f : string -> bool) (e : elt) : option elt :=
  first_such (fun x => name_is nm x.2 && string_matches f x.2) (descendants_of e).

(** The strings below a node, in document order. *)
Fixpoint strings_of (n : node) : list string :=
  match n with
  | Text s => [s]
  | Elem _ _ cs =>
      (fix go (cs : list node) : list string :=
         match cs with
         | [] => []
         | c :: cs' => strings_of c ++ go cs'
         end) cs
  end.

(** [tag.get_text(sep, strip=True)]: every string stripped, the
    empty ones dropped. *)
Definition get_text_strip (sep : string) (n : node) : string :=
  join sep (List.filter truthy (map strip (strings_of n))).

(** [tag.get_text()] *)
Definition get_text (n : node) : string := join "" (strings_of n).

End Soup.

(** ** Records, categories and exceptions *)

Import PyStr Soup.

(** The values [EL_Type] takes: the string literals the module
    assigns to it. *)
Inductive Category :=
| university | required | core | area | free | extra_attribute | unknown.

#[global] Instance Category_eq_dec : EqDecision Category.
Proof. solve_decision. Defined.

(** The three keys [get_course_details] returns and [row.update]
    adds to a row. *)
Record Details := {
  Prerequisites : string;
  Corequisites : string;
  Last_Offered_Term : string;
}.

(** The dictionary [parse_table] builds for one course; [details] is
    [None] until [row.update(details)] has run on it. *)
Record Row := {
  Major : string;
  Code : string;
  Course_Name : string;
  ECTS : string;
  Engineering : Z;
  Basic_Science : Z;
  SU_credit : string;
  Faculty : string;
  EL_Type : Category;
  Faculty_Course : string;
  details : option Details;
}.

Inductive exn := RequestException | IndexError.

Inductive result (A : Type) :=
| Ok (a : A)
| Raise (e : exn).
Arguments Ok {A} a.
Arguments Raise {A} e.

#[global] Instance result_ret : MRet result := fun A a => Ok a.
#[global] Instance result_bind : MBind result := fun A B f m =>
  match m with
  | Ok a => f a
  | Raise e => Raise e
  end.

(** What a run has done so far, in order.  The trace is not a value of
    the program: it records which anchors entered the zone pass and
    which batches of rows reached the merge, so that properties of a
    run can speak about them. *)
Inductive origin :=
| from_zone_table (anchor table : elt)
| from_zone_link (anchor : elt) (href : string)
| from_sweep_link (href : string).

Inductive event :=
| zone_entered (anchor : elt) (el_type : Category)
| rows_parsed (src : origin) (el_type : Category) (new_rows : list Row).

(** The two accumulators of [crawl_program], and the trace. *)
Record state := {
  results : list Row;
  seen_courses : gset string;
  trace : list event;
}.

(** ** Constants *)

Definition BASE : string := "https://suis.sabanciuniv.edu/prod/".

Definition FACULTY_COURSES : list (string * list string) :=
  [ ("FENS",
     [ "CS201"; "CS204"; "DSA210"; "EE200"; "EE202"; "ENS201"; "ENS202"; "ENS203";
       "ENS204"; "ENS205"; "ENS206"; "ENS207"; "ENS208"; "ENS209"; "ENS210"; "ENS211";
       "ENS214"; "ENS216"; "MAT204"; "MATH201"; "MATH202"; "MATH203"; "MATH204";
       "NS201"; "NS207"; "NS213"; "NS214"; "NS216"; "NS218"; "PHYS211" ]);
    ("FASS",
     [ "ANTH255"; "ANTH326"; "CULT368"; "GEN341"; "LIT212"; "LIT359"; "PHIL202";
       "PHIL321"; "VA315"; "ECON201"; "ECON202"; "ECON204"; "HART292"; "HART311";
       "HIST205"; "HIST349"; "PSY201"; "PSY310"; "PSY340"; "IR201"; "IR301";
       "IR391"; "IR394"; "POLS250"; "POLS301"; "SOC201"; "SOC301"; "HART213";
       "HART293"; "VA201"; "VA203"; "VA312" ]);
    ("SBS",
     [ "ACC201"; "FIN301"; "MGMT402"; "MKTG301"; "OPIM302"; "ORG301"; "ORG302" ]) ].

(** ** Pure helpers *)

Definition mem (x : string) (l : list string) : bool := existsb (String.eqb x) l.

Definition get_faculty_for_course (major code : string) : option string :=
  let course_code := major +:+ code in
  fst <$> first_such (fun fc => mem course_code fc.2) FACULTY_COURSES.

Definition is_faculty_course (major code : string) : bool :=
  bool_decide (get_faculty_for_course major code ≠ None).

Definition map_category (title : string) : Category :=
  let t := lower title in
  if contains "university" t && contains "courses" t then university
  else if contains "required" t && contains "courses" t then required
  else if contains "core" t && contains "elective" t then core
  else if contains "area" t && contains "elective" t then area
  else if contains "free" t && contains "elective" t then free
  else if String.eqb t "total" then university
  else unknown.

(** The guard of the zone pass (lines 230-233). *)
Definition is_zone_anchor (name_attr : string) : bool :=
  endswith "_CEL" name_attr || endswith "_REQ" name_attr
  || endswith "_AEL" name_attr || endswith "_ARE" name_attr
  || startswith "main" name_attr.

(** The category of a zone from its anchor (lines 243-258).  In the
    source the second test reads [endswith('_CE2' or '_PHL')], and
    ['_CE2' or '_PHL'] is ['_CE2']. *)
Definition anchor_category (name_attr category_title : string) : Category :=
  if endswith "_CEL" name_attr || contains "_COR" name_attr
     || contains "_CE1" name_attr || contains "_C1" name_attr then core
  else if endswith "_CE2" name_attr || endswith "_C2" name_attr
          || contains "_MEL" name_attr then extra_attribute
  else if endswith "_REQ" name_attr then required
  else if endswith "_AEL" name_attr || endswith "_ARE" name_attr then area
  else if endswith "_FEL" name_attr || endswith "_FRE" name_attr then free
  else if String.eqb name_attr "UC_FENS" || String.eqb name_attr "UC_FASS" then university
  else map_category category_title.

(** The category of an expand link of a zone, from its area code
    (lines 361-376). *)
Definition zone_link_category (area_code : string) : Category :=
  if contains "_CEL" area_code || contains "_COR" area_code
     || contains "_CE1" area_code || contains "_C1" area_code then core
  else if contains "_CE2" area_code || contains "_PHL" area_code
          || contains "_MEL" area_code || contains "_C2" area_code then extra_attribute
  else if contains "_REQ" area_code then required
  else if contains "_AEL" area_code || contains "_ARE" area_code then area
  else if contains "_FEL" area_code || contains "_FRE" area_code then free
  else if contains "UC_" area_code then university
  else if contains "_PHL" area_code || contains "_MEL" area_code then required
  else unknown.

(** The category of a link met by the sweep over the whole document,
    from its area code (lines 392-406). *)
Definition sweep_link_category (area_code : string) : Category :=
  if contains "_CEL" area_code || contains "_COR" area_code
     || contains "_CE1" area_code || contains "_CE2" area_code
     || contains "_C1" area_code || contains "_C2" area_code then core
  else if contains "_REQ" area_code then required
  else if contains "_AEL" area_code || contains "_ARE" area_code then area
  else if contains "_FEL" area_code || contains "_FRE" area_code then free
  else if contains "UC_" area_code then university
  else if contains "_PHL" area_code || contains "_MEL" area_code then required
  else unknown.

(** [re.search(r'P_AREA=([^&]+)', href)], group 1. *)
Definition area_code_of (href : string) : option string :=
  search_param "P_AREA=" href.

(** The [EL_Type] a row is stored with (lines 185-193). *)
Definition row_el_type (has_asterisk : bool) (faculty_course : string)
    (category : Category) : Category :=
  if has_asterisk && negb (String.eqb faculty_course "No")
     && bool_decide (category = required) then core
  else if has_asterisk && negb (String.eqb faculty_course "No")
          && bool_decide (category = area) then area
  else if has_asterisk && negb (String.eqb faculty_course "No")
          && bool_decide (category = free) then free
  else category.

Definition course_id (row : Row) : string := Major row +:+ Code row.

(** [if course_id not in seen_courses: results.append(row);
    seen_courses.add(course_id)] *)
Definition add_row (st : state) (row : Row) : state :=
  if bool_decide (course_id row ∈ seen_courses st) then st
  else {| results := results st ++ [row];
          seen_courses := seen_courses st ∪ {[ course_id row ]};
          trace := trace st |}.

Definition merge_rows (new_rows : list Row) (st : state) : state :=
  foldl add_row st new_rows.

Definition record (ev : event) (st : state) : state :=
  {| results := results st;
     seen_courses := seen_courses st;
     trace := trace st ++ [ev] |}.

(** The test of the last loop of [crawl_program] (lines 418-420). *)
Definition wants_details (row : Row) : bool :=
  bool_decide (EL_Type row = required) || bool_decide (EL_Type row = university)
  || (bool_decide (EL_Type row = core) || bool_decide (EL_Type row = area))
     && mem (Major row) ["CS"; "DSA"].

(** [row.update(details)] *)
Definition update (row : Row) (d : Details) : Row :=
  {| Major := Major row; Code := Code row; Course_Name := Course_Name row;
     ECTS := ECTS row; Engineering := Engineering row;
     Basic_Science := Basic_Science row; SU_credit := SU_credit row;
     Faculty := Faculty row; EL_Type := EL_Type row;
     Faculty_Course := Faculty_Course row; details := Some d |}.

(** ** The label extractor *)

(** [soup.find('span', string=lambda s: s and label in s)] *)
Definition find_label_span (soup : node) (label : string) : option elt :=
  find_string "span" (contains label) (root soup).

(** The loop over [span.next_siblings] (lines 56-67): [parts] as it
    stands when the loop ends. *)
Fixpoint collect_parts (started : bool) (sibs : list node) : list string :=
  match sibs with
  | [] => []
  | sib :: rest =>
      if name_is "br" sib then
        (if started then [] else collect_parts true rest)
      else
        (match sib with
         | Text s => strip s
         | Elem _ _ _ => get_text_strip " " sib
         end) :: collect_parts started rest
  end.

Definition _extract_detail_text (soup : node) (label : string) : string :=
  match find_label_span soup label with
  | None => ""
  | Some span =>
      let parts := collect_parts false (snd <$> next_siblings soup span) in
      strip (join " " (List.filter truthy parts))
  end.

(** ** The functions that fetch and parse *)

Section Fetch.

(** [requests.get(url)], [raise_for_status()] and
    [BeautifulSoup(resp.text, 'lxml')] in one: the parsed page, or
    [None] when any of them raises. *)
Variable http_get : string -> option node.

(** [urllib.parse.urljoin], on the addresses it accepts. *)
Variable urljoin : string -> string -> string.

(** [str(tag)]: the markup of a tag. *)
Variable tag_html : node -> string.

(** The first [try] block of [get_course_details] (lines 83-98),
    given the page: the value [last_offered_term] ends with. *)
Definition last_offered_term_in (soup : node) : string :=
  match find_string "b" (contains "Last Offered Terms") (root soup) with
  | None => ""
  | Some last_offered_header =>
      match find_parent soup "table" last_offered_header with
      | None => ""
      | Some table =>
          let rows := find_all "tr" table in
          match list_find (fun row : elt =>
                  contains "Last Offered Terms" (get_text row.2) = true) rows with
          | None => ""
          | Some (header_row_index, _) =>
              match rows !! (header_row_index + 1) with
              | None => ""
              | Some data_row =>
                  match find_all "td" data_row with
                  | [] => ""
                  | cell :: _ => get_text_strip "" cell.2
                  end
              end
          end
      end
  end.

Definition get_course_details (term major code : string) : Details :=
  let last_offered_url :=
    BASE +:+ "sabanci_www.p_get_courses?levl_code=UG&subj_code=" +:+ major
    +:+ "&crse_numb=" +:+ code +:+ "&lang=eng" in
  let last_offered_term :=
    match http_get last_offered_url with
    | Some soup => last_offered_term_in soup
    | None => ""
    end in
  let detail_url :=
    BASE +:+ "bwckctlg.p_disp_course_detail?cat_term_in=" +:+ term
    +:+ "&subj_code_in=" +:+ major +:+ "&crse_numb_in=" +:+ code in
  let '(prereq, coreq) :=
    match http_get detail_url with
    | Some soup =>
        (_extract_detail_text soup "Prerequisites",
         _extract_detail_text soup "Corequisites")
    | None => ("", "")
    end in
  {| Prerequisites := prereq; Corequisites := coreq;
     Last_Offered_Term := last_offered_term |}.

(** The asterisk test on the first cell of a row (lines 174-177). *)
Definition has_asterisk_in (tr : elt) : bool :=
  match find_all "td" tr with
  | [] => false
  | first_cell :: _ =>
      let first_cell_html := tag_html first_cell.2 in
      contains "<center>&nbsp;*&nbsp;</center>" first_cell_html
      || contains "<center> * </center>" first_cell_html
  end.

(** The body of the loop of [parse_table] for one [tr] (lines
    166-205): the row appended, if any.  [parts[0]] raises on an
    empty list. *)
Definition parse_row (category : Category) (tr : elt) : result (option Row) :=
  let tds := (fun td : elt => get_text_strip "" td.2) <$> find_all "td" tr in
  match tds with
  | td0 :: td1 :: td2 :: td3 :: td4 :: more =>
      if truthy td1 then
        let code := replace_nbsp td1 in
        let parts := split code in
        match parts with
        | [] => Raise IndexError
        | major :: rest =>
            let number := if (1 <? List.length parts)%nat then join "" rest else "" in
            let has_asterisk := has_asterisk_in tr in
            let faculty_course :=
              default "No" (get_faculty_for_course major number) in
            let el_type := row_el_type has_asterisk faculty_course category in
            Ok (Some {| Major := major; Code := number;
                        Course_Name := td2; ECTS := td3;
                        Engineering := 0; Basic_Science := 0;
                        SU_credit := td4;
                        Faculty := match more with td5 :: _ => td5 | [] => "" end;
                        EL_Type := el_type;
                        Faculty_Course := faculty_course;
                        details := None |})
        end
      else Ok None
  | _ => Ok None
  end.

Fixpoint parse_rows (category : Category) (trs : list elt) : result (list Row) :=
  match trs with
  | [] => Ok []
  | tr :: rest =>
      row ← parse_row category tr;
      rows ← parse_rows category rest;
      Ok (option_list row ++ rows)
  end.

(** [trs[1 if header else 0:]] *)
Definition data_rows (table : elt) : list elt :=
  let trs := find_all "tr" table in
  match trs with
  | [] => []
  | tr0 :: _ =>
      let header := bool_decide (0 < List.length (find_all "th" tr0))%nat in
      drop (if header then 1 else 0) trs
  end.

Definition parse_table (table : elt) (category : Category) : result (list Row) :=
  parse_rows category (data_rows table).

Definition crawl_list (url : string) (category : Category) : result (list Row) :=
  match http_get url with
  | None => Raise RequestException
  | Some soup =>
      match find "table" (root soup) with
      | Some table => parse_table table category
      | None => Ok []
      end
  end.

(** *** Locating the table of a zone (lines 260-324) *)

Definition found {A} (o : option A) : bool :=
  match o with Some _ => true | None => false end.

(** [table.find('th', string=lambda s: s and (w1 in s or w2 in s ...))]
    as a truth value. *)
Definition th_mentions (words : list string) (table : elt) : bool :=
  found (find_string "th" (fun s => existsb (fun w => contains w s) words) table).

(** The test on one row at lines 280-284. *)
Definition row_has_course_code (row : elt) : bool :=
  match find_all "td" row with
  | _ :: td1 :: _ :: _ :: _ :: _ =>
      truthy (get_text_strip "" td1.2)
      && match_course_code (replace_nbsp (get_text_strip "" td1.2))
  | _ => false
  end.

Definition looks_like_course_table (current_element : elt) : bool :=
  th_mentions ["Course"; "Name"; "ECTS"; "SU Credits"] current_element
  || (let rows := find_all "tr" current_element in
      (1 <? List.length rows)%nat && existsb row_has_course_code (drop 1 rows)).

(** Method 1: the next [n] tags after the anchor. *)
Fixpoint proximity_scan (soup : node) (n : nat) (current_element : elt) : option elt :=
  match n with
  | O => None
  | S n' =>
      match find_next soup current_element with
      | None => None
      | Some next =>
          if name_is "table" next.2 && looks_like_course_table next
          then Some next
          else proximity_scan soup n' next
      end
  end.

(** Method 2: the loop over the siblings that follow the enclosing
    table; [siblings] are the successive [find_next_sibling()]. *)
Fixpoint sibling_scan (siblings : list elt) : option elt :=
  match siblings with
  | [] => None
  | next_element :: rest =>
      if name_is "tr" next_element.2 then
        match find "table" next_element with
        | Some nested_table =>
            if th_mentions ["Course"; "Name"] nested_table
            then Some nested_table else sibling_scan rest
        | None => sibling_scan rest
        end
      else if name_is "table" next_element.2 then
        (if th_mentions ["Course"; "Name"] next_element
         then Some next_element else sibling_scan rest)
      else sibling_scan rest
  end.

(** Method 3: [all_tables], the next [n] tables after the anchor. *)
Fixpoint following_tables (soup : node) (n : nat) (current : elt) : list elt :=
  match n with
  | O => []
  | S n' =>
      match find_next_named soup "table" current with
      | None => []
      | Some table => table :: following_tables soup n' table
      end
  end.

Definition locate_table (soup : node) (a : elt) : option elt :=
  match proximity_scan soup 10 a with
  | Some table => Some table
  | None =>
      match
        match find_parent soup "table" a with
        | Some parent_table => sibling_scan (find_next_siblings soup parent_table)
        | None => None
        end
      with
      | Some table => Some table
      | None =>
          first_such (th_mentions ["Course"; "Name"; "ECTS"])
            (following_tables soup 20 a)
      end
  end.

(** *** The expand links of a zone (lines 336-353) *)

(** An [a] tag passing [href=lambda h: h and 'p_list_courses' in h]. *)
Definition is_list_link (n : node) : bool :=
  name_is "a" n
  && match get_attr "href" n with
     | Some h => truthy h && contains "p_list_courses" h
     | None => false
     end.

Definition find_list_links (e : elt) : list elt :=
  List.filter (fun x : elt => is_list_link x.2) (descendants_of e).

Fixpoint forward_links (soup : node) (n : nat) (current_element : elt) : list elt :=
  match n with
  | O => []
  | S n' =>
      match find_next soup current_element with
      | None => []
      | Some next =>
          (if is_list_link next.2 then [next] else [])
          ++ forward_links soup n' next
      end
  end.

Definition zone_links (soup : node) (a : elt) : list elt :=
  let links :=
    match find_parent soup "table" a with
    | Some parent_table => find_list_links parent_table
    | None => []
    end in
  match links, parent soup a with
  | [], Some a_parent =>
      flat_map find_list_links (find_next_siblings soup a_parent)
      ++ forward_links soup 15 a
  | _, _ => links
  end.

(** [link['href']] *)
Definition href_of (link : elt) : string := default "" (get_attr "href" link.2).

(** *** [crawl_program] *)

(** A [for] loop whose body may raise. *)
Fixpoint for_each {A} (body : state -> A -> result state) (l : list A)
    (st : state) : result state :=
  match l with
  | [] => Ok st
  | x :: l' => st' ← body st x; for_each body l' st'
  end.

(** The title of a zone (lines 236-240). *)
Definition category_title_of (soup : node) (a : elt) : string :=
  match a_parent ← parent soup a; find "b" a_parent with
  | Some b => get_text_strip "" b.2
  | None =>
      match find_next_named soup "b" a with
      | Some b => get_text_strip "" b.2
      | None => ""
      end
  end.

(** The loop over the links of one zone (lines 355-383); [el_type]
    is the variable of that name, carried from one link to the next. *)
Fixpoint follow_links (anchor : elt) (el_type : Category) (links : list elt)
    (st : state) : result state :=
  match links with
  | [] => Ok st
  | link :: rest =>
      let href := href_of link in
      let el_type :=
        match area_code_of href with
        | Some area_code => zone_link_category area_code
        | None => el_type
        end in
      let list_url := urljoin BASE href in
      new_rows ← crawl_list list_url el_type;
      follow_links anchor el_type rest
        (merge_rows new_rows
           (record (rows_parsed (from_zone_link anchor href) el_type new_rows) st))
  end.

(** The body of the loop over [soup.select('a[name]')] (lines 228-383). *)
Definition visit_anchor (soup : node) (st : state) (a : elt) : result state :=
  let name_attr := default "" (get_attr "name" a.2) in
  if negb (is_zone_anchor name_attr) then Ok st
  else
    let category_title := category_title_of soup a in
    let el_type := anchor_category name_attr category_title in
    let st := record (zone_entered a el_type) st in
    st ← match locate_table soup a with
         | Some table =>
             new_rows ← parse_table table el_type;
             Ok (merge_rows new_rows
                   (record (rows_parsed (from_zone_table a table) el_type new_rows) st))
         | None => Ok st
         end;
    follow_links a el_type (zone_links soup a) st.

(** The body of the sweep (lines 387-414). *)
Definition visit_click_link (st : state) (click_link : elt) : result state :=
  let href := href_of click_link in
  match area_code_of href with
  | Some area_code =>
      let el_type := sweep_link_category area_code in
      let list_url := urljoin BASE href in
      new_rows ← crawl_list list_url el_type;
      Ok (merge_rows new_rows
            (record (rows_parsed (from_sweep_link href) el_type new_rows) st))
  | None => Ok st
  end.

(** [soup.select('a[name]')] *)
Definition select_named_anchors (soup : node) : list elt :=
  List.filter (fun x : elt => name_is "a" x.2 && found (get_attr "name" x.2))
    (descendants_of (root soup)).

Definition initial_state : state :=
  {| results := []; seen_courses := ∅; trace := [] |}.

Definition program_url (code term : string) : string :=
  BASE +:+ "SU_DEGREE.p_degree_detail?P_PROGRAM=" +:+ code
  +:+ "&P_LANG=EN&P_LEVEL=UG" +:+ "&P_TERM=" +:+ term +:+ "&P_SUBMIT=Select".

(** The three passes over a fetched page (lines 223-414). *)
Definition crawl_page (soup : node) : result state :=
  st ← for_each (visit_anchor soup) (select_named_anchors soup) initial_state;
  for_each visit_click_link (find_list_links (root soup)) st.

(** The last loop (lines 417-422) on one row. *)
Definition add_details (term : string) (row : Row) : Row :=
  if wants_details row
  then update row (get_course_details term (Major row) (Code row))
  else row.

(** [crawl_program] up to the end of the sweep, with the trace. *)
Definition crawl_program_state (code term : string) : result state :=
  match http_get (program_url code term) with
  | None => Raise RequestException
  | Some soup => crawl_page soup
  end.

Definition crawl_program (code term : string) : result (list Row) :=
  st ← crawl_program_state code term;
  Ok (add_details term <$> results st).

End Fetch.

Arguments crawl_program_state http_get urljoin tag_html code term : assert.
Arguments crawl_program http_get urljoin tag_html code term : assert.

(** ** Rule tables, as the specification words them *)

(** A priority-ordered rule table: the first rule whose test holds
    gives the category. *)
Fixpoint first_match (rules : list ((string -> bool) * Category)) (s : string)
    (otherwise : Category) : Category :=
  match rules with
  | [] => otherwise
  | (test, c) :: rules' => if test s then c else first_match rules' s otherwise
  end.

Definition has_all (words : list string) (s : string) : bool :=
  forallb (fun w => contains w s) words.

Definition has_any (words : list string) (s : string) : bool :=
  existsb (fun w => contains w s) words.

(** The heading-text rules (section 4.1, rule 3), on the lower-cased
    title. *)
Definition heading_rules : list ((string -> bool) * Category) :=
  [ (has_all ["university"; "courses"], university);
    (has_all ["required"; "courses"], required);
    (has_all ["core"; "elective"], core);
    (has_all ["area"; "elective"], area);
    (has_all ["free"; "elective"], free);
    (fun t => String.eqb t "total", university) ].

(** The link-target rules (section 4.1, rule 1). *)
Definition link_target_rules : list ((string -> bool) * Category) :=
  [ (has_any ["_CEL"; "_COR"; "_CE1"; "_C1"], core);
    (has_any ["_CE2"; "_PHL"; "_MEL"; "_C2"], extra_attribute);
    (has_any ["_REQ"], required);
    (has_any ["_AEL"; "_ARE"], area);
    (has_any ["_FEL"; "_FRE"], free);
    (has_any ["UC_"], university) ].

(** The rules the sweep over the whole document applies. *)
Definition sweep_rules : list ((string -> bool) * Category) :=
  [ (has_any ["_CEL"; "_COR"; "_CE1"; "_CE2"; "_C1"; "_C2"], core);
    (has_any ["_REQ"], required);
    (has_any ["_AEL"; "_ARE"], area);
    (has_any ["_FEL"; "_FRE"], free);
    (has_any ["UC_"], university);
    (has_any ["_PHL"; "_MEL"], required) ].

(** The category a link of a zone is fetched with when the links
    before it are [earlier] and the zone was classified [zone_category]:
    that of the last earlier link carrying an area code, the zone's own
    when there is none. *)
Definition carried_category (zone_category : Category) (earlier : list elt) : Category :=
  match last (omap (fun l => area_code_of (href_of l)) earlier) with
  | Some area_code => zone_link_category area_code
  | None => zone_category
  end.

(** The rows that reached the merge, in the order they did. *)
Definition produced (tr : list event) : list Row :=
  flat_map (fun ev => match ev with
                      | rows_parsed _ _ new_rows => new_rows
                      | zone_entered _ _ => []
                      end) tr.

Definition identity (row : Row) : string * string := (Major row, Code row).

(** The cells of a row as [parse_table] reads them. *)
Definition cells (tr : elt) : list string :=
  (fun td : elt => get_text_strip "" td.2) <$> find_all "td" tr.

(** ** Predicates the properties are stated with *)

(** A string holding a character that is not whitespace. *)
Fixpoint has_ink (s : string) : bool :=
  match s with
  | EmptyString => false
  | String c s' => negb (is_space c) || has_ink s'
  end.

(** The first character is not whitespace. *)
Definition starts_ink (s : string) : bool := head_is (fun c => negb (is_space c)) s.

(** The last character is not whitespace. *)
Fixpoint ends_ink (s : string) : bool :=
  match s with
  | EmptyString => false
  | String c EmptyString => negb (is_space c)
  | String _ s' => ends_ink s'
  end.

Definition trimmed (s : string) : Prop := starts_ink s = true /\ ends_ink s = true.

(** The outcome of one row, as the row parser's contract words it. *)
Definition row_outcome (tag_html : node -> string) (category : Category) (tr : elt)
    (o : option Row) : Prop :=
  parse_row tag_html category tr = Ok o
  /\ (is_Some o <->
      5 <= List.length (cells tr) /\ exists s, cells tr !! 1 = Some s /\ s <> "")
  /\ (forall r, o = Some r ->
      exists s major rest,
        cells tr !! 1 = Some s /\ split s = major :: rest
        /\ Major r = major /\ Code r = join "" rest).

(** What the two accumulators hold once the rows of [stream] have
    been merged, in that order. *)
Record merged (st : state) (stream : list Row) : Prop := {
  seen_are_results :
    forall id, id ∈ seen_courses st <-> exists r, r ∈ results st /\ course_id r = id;
  results_distinct : NoDup (course_id <$> results st);
  results_are_first :
    forall r, r ∈ results st ->
      first_such (fun x => bool_decide (course_id x = course_id r)) stream = Some r;
  stream_is_seen : forall x, x ∈ stream -> course_id x ∈ seen_courses st;
}.

(** The state of a run is the merge of what its trace produced. *)
Definition state_merged (st : state) : Prop := merged st (produced (trace st)).

(** Rows as the parser leaves them under a category: no detail
    fields, and the category itself, or core by the asterisk rule
    when the category is required. *)
Definition parsed_under (category : Category) (rows : list Row) : Prop :=
  forall r, r ∈ rows ->
    details r = None
    /\ (EL_Type r = category \/ (category = required /\ EL_Type r = core)).

Definition event_sound (ev : event) : Prop :=
  match ev with
  | zone_entered _ _ => True
  | rows_parsed _ category new_rows => parsed_under category new_rows
  end.

(** ** Runs, as relations on the trace *)

Section Runs.
Variable http_get : string -> option node.
Variable urljoin : string -> string -> string.
Variable tag_html : node -> string.

(** The events the link loop of a zone adds when every fetch
    succeeds: one batch per link, each parsed under the category
    carried to it. *)
Inductive link_run (a : elt) : Category -> list elt -> list event -> Prop :=
| link_run_nil (el_type : Category) : link_run a el_type [] []
| link_run_cons (el_type : Category) (link : elt) (rest : list elt)
    (new_rows : list Row) (evs : list event) :
    let href := href_of link in
    let el_type' :=
      match area_code_of href with
      | Some area_code => zone_link_category area_code
      | None => el_type
      end in
    crawl_list http_get tag_html (urljoin BASE href) el_type' = Ok new_rows ->
    link_run a el_type' rest evs ->
    link_run a el_type (link :: rest)
      (rows_parsed (from_zone_link a href) el_type' new_rows :: evs).

(** The events one anchor adds to the trace. *)
Definition zone_run (soup : node) (a : elt) (evs : list event) : Prop :=
  let name_attr := default "" (get_attr "name" a.2) in
  if is_zone_anchor name_attr then
    let el_type := anchor_category name_attr (category_title_of soup a) in
    exists table_evs link_evs,
      evs = zone_entered a el_type :: table_evs ++ link_evs
      /\ match locate_table soup a with
         | Some table =>
             exists new_rows,
               parse_table tag_html table el_type = Ok new_rows
               /\ table_evs = [rows_parsed (from_zone_table a table) el_type new_rows]
         | None => table_evs = []
         end
      /\ link_run a el_type (zone_links soup a) link_evs
  else evs = [].

(** The events one link adds to the trace during the sweep. *)
Definition sweep_run (click_link : elt) (evs : list event) : Prop :=
  let href := href_of click_link in
  match area_code_of href with
  | Some area_code =>
      let el_type := sweep_link_category area_code in
      exists new_rows,
        crawl_list http_get tag_html (urljoin BASE href) el_type = Ok new_rows
        /\ evs = [rows_parsed (from_sweep_link href) el_type new_rows]
  | None => evs = []
  end.

End Runs.

(** ** Three sentences of the specification, as it words them *)

(** The sweep over the whole document classifies a link by the
    link-target rules of section 4.1. *)
Definition sweep_follows_link_target_rules : Prop :=
  forall (http_get : string -> option node) (urljoin : string -> string -> string)
    (tag_html : node -> string) (code term : string) (st : state)
    (href : string) (category : Category) (new_rows : list Row),
    crawl_program_state http_get urljoin tag_html code term = Ok st ->
    rows_parsed (from_sweep_link href) category new_rows ∈ trace st ->
    exists area_code,
      area_code_of href = Some area_code
      /\ category = first_match link_target_rules area_code unknown.

(** Given a label followed by a value, a break, a second value, a
    second break and anything else, the extractor returns the first
    value. *)
Definition extract_returns_first_value : Prop :=
  forall (soup : node) (label : string) (span : elt) (value1 value2 : string)
    (break1 break2 : node) (trailing : list node),
    find_label_span soup label = Some span ->
    snd <$> next_siblings soup span
      = Text value1 :: break1 :: Text value2 :: break2 :: trailing ->
    name_is "br" break1 = true ->
    name_is "br" break2 = true ->
    _extract_detail_text soup label = value1.

(** Once the program page is fetched the run returns a list of
    records, whatever happens to the fetches of its links. *)
Definition link_failures_absorbed : Prop :=
  forall (http_get : string -> option node) (urljoin : string -> string -> string)
    (tag_html : node -> string) (code term : string) (soup : node),
    http_get (program_url code term) = Some soup ->
    exists rows, crawl_program http_get urljoin tag_html code term = Ok rows.

(** ** Sample pages *)

Module Sample.

(** A serializer for the samples: tags with their contents,
    attributes left out. *)
Fixpoint html (n : node) : string :=
  match n with
  | Text s => s
  | Elem nm _ cs =>
      "<" +:+ nm +:+ ">"
      +:+ (fix go (cs : list node) : string :=
             match cs with
             | [] => ""
             | c :: cs' => html c +:+ go cs'
             end) cs
      +:+ "</" +:+ nm +:+ ">"
  end.

Definition join_url (base href : string) : string := base +:+ href.

Definition td (s : string) : node := Elem "td" [] [Text s].
Definition th (s : string) : node := Elem "th" [] [Text s].
Definition tr (cs : list node) : node := Elem "tr" [] cs.
Definition br : node := Elem "br" [] [].
Definition starred : node := Elem "td" [] [Elem "center" [] [Text " * "]].

Definition header_row : node :=
  tr [th ""; th "Course"; th "Name"; th "ECTS"; th "SU Credits"; th "Faculty"].

Definition href_cel : string := "SU_DEGREE.p_list_courses?P_AREA=BSCS_CEL".
Definition href_plain : string := "SU_DEGREE.p_list_courses?P_TERM=202401".
Definition href_ce2 : string := "SU_DEGREE.p_list_courses?P_AREA=BSCS_CE2".

Definition click (href : string) : node := Elem "a" [("href", href)] [Text "Click"].

Definition req_anchor : node := Elem "a" [("name", "BSCS_REQ")] [].
Definition ael_anchor : node := Elem "a" [("name", "BSCS_AEL")] [].

(** A program page: a required zone with its table, an area zone
    inside a table with two expand links, and a link of its own at
    the end. *)
Definition page : node :=
  Elem "[document]" []
    [ req_anchor;
      Elem "b" [] [Text "Required Courses"];
      Elem "table" []
        [ header_row;
          tr [td ""; td "CS 201"; td "Intro to CS"; td "6"; td "4"; td "FENS"];
          tr [starred; td "MATH 201"; td "Linear Algebra"; td "6"; td "3"; td "FENS"] ];
      Elem "table" []
        [ tr [Elem "td" [] [ael_anchor; click href_cel; click href_plain]] ];
      click href_ce2 ].

Definition list_page (rows : list node) : node :=
  Elem "[document]" [] [Elem "table" [] rows].

Definition cel_page : node :=
  list_page [ tr [td ""; td "CS 300"; td "Data Structures"; td "6"; td "3"; td "FENS"];
              tr [td ""; td "CS 201"; td "Intro again"; td "6"; td "3"; td "FENS"] ].

Definition plain_page : node :=
  list_page [ tr [td ""; td "CS 301"; td "Algorithms"; td "6"; td "3"; td "FENS"] ].

Definition ce2_page : node :=
  list_page [ tr [td ""; td "CS 302"; td "Automata"; td "6"; td "3"; td "FENS"] ].

(** A course detail page: the label, a value, a break, a second
    value, a second break and something after it. *)
Definition detail_page : node :=
  Elem "[document]" []
    [ Elem "span" [] [Text "Prerequisites: "];
      Text "value1"; br; Text "value2"; br; Text "trailing" ].

Definition program_code : string := "BSCS".
Definition term : string := "202401".

(** Every page answers. *)
Definition get (url : string) : option node :=
  if String.eqb url (program_url program_code term) then Some page
  else if contains "P_AREA=BSCS_CEL" url then Some cel_page
  else if contains "P_AREA=BSCS_CE2" url then Some ce2_page
  else if contains "p_list_courses" url then Some plain_page
  else if contains "p_disp_course_detail" url then Some detail_page
  else None.

(** Only the program page answers. *)
Definition get_page_only (url : string) : option node :=
  if String.eqb url (program_url program_code term) then Some page else None.

Definition final_state : state :=
  match crawl_program_state get join_url html program_code term with
  | Ok st => st
  | Raise _ => initial_state
  end.

Definition final_rows : list Row :=
  match crawl_program get join_url html program_code term with
  | Ok rows => rows
  | Raise _ => []
  end.

Definition the_req_anchor : elt := ([0], req_anchor).
Definition the_ael_anchor : elt := ([0; 0; 0; 3], ael_anchor).
Definition the_cel_link : elt := ([1; 0; 0; 3], click href_cel).
Definition the_plain_link : elt := ([2; 0; 0; 3], click href_plain).
Definition the_ce2_link : elt := ([4], click href_ce2).
Definition the_table : elt :=
  ([2], Elem "table" []
          [ header_row;
            tr [td ""; td "CS 201"; td "Intro to CS"; td "6"; td "4"; td "FENS"];
            tr [starred; td "MATH 201"; td "Linear Algebra"; td "6"; td "3"; td "FENS"] ]).
Definition the_starred_row : elt :=
  ([2; 2],
   tr [starred; td "MATH 201"; td "Linear Algebra"; td "6"; td "3"; td "FENS"]).

Definition math201 : Row :=
  {| Major := "MATH"; Code := "201"; Course_Name := "Linear Algebra";
     ECTS := "6"; Engineering := 0; Basic_Science := 0; SU_credit := "3";
     Faculty := "FENS"; EL_Type := core; Faculty_Course := "FENS";
     details := None |}.

Definition cs201 : Row :=
  {| Major := "CS"; Code := "201"; Course_Name := "Intro to CS";
     ECTS := "6"; Engineering := 0; Basic_Science := 0; SU_credit := "4";
     Faculty := "FENS"; EL_Type := required; Faculty_Course := "FENS";
     details := Some {| Prerequisites := "value1 value2"; Corequisites := "";
                        Last_Offered_Term := "" |} |}.

Definition the_span : elt := ([0], Elem "span" [] [Text "Prerequisites: "]).

End Sample.

(** ** The entry point and the two page readers it calls *)

(** What [main] and its readers can raise: what [crawl_program]
    raises, the [KeyError] of [opt['value']], or the [OSError] of
    [os.makedirs], [open] and [json.dump]. *)
Inductive raised :=
| crawl_raised (e : exn)
| KeyError (key : string)
| OSError.

Inductive outcome (A : Type) :=
| Returns (a : A)
| Throws (r : raised).
Arguments Returns {A} a.
Arguments Throws {A} r.

Definition COURSES_DIR : string := "courses".

Definition LIST_URL : string :=
  BASE +:+ "SU_DEGREE.p_list_degree?P_LEVEL=UG&P_LANG=EN&P_PRG_TYPE=".

Definition PROGRAM_FILES : list (string * string) := [ ("BSCS", "CS.json") ].

(** [soup.select('a[href*="P_PROGRAM="]')] *)
Definition select_program_anchors (soup : node) : list elt :=
  List.filter
    (fun x : elt =>
       name_is "a" x.2
       && match get_attr "href" x.2 with
          | Some h => contains "P_PROGRAM=" h
          | None => false
          end)
    (descendants_of (root soup)).

(** The loop of [get_program_codes] (lines 127-130) on one anchor. *)
Definition add_program_code (codes : gmap string string) (a : elt) : gmap string string :=
  match search_param "P_PROGRAM=" (href_of a) with
  | Some program => <[ program := get_text_strip "" a.2 ]> codes
  | None => codes
  end.

(** [get_program_codes], given the page. *)
Definition program_codes_in (soup : node) : gmap string string :=
  foldl add_program_code ∅ (select_program_anchors soup).

(** [soup.select_one('select[name=P_TERM] option')] *)
Definition select_first_term_option (soup : node) : option elt :=
  first_such
    (fun x : elt =>
       name_is "option" x.2
       && existsb
            (fun anc : elt =>
               name_is "select" anc.2
               && bool_decide (get_attr "name" anc.2 = Some "P_TERM"))
            (parents_of soup x.1))
    (descendants_of (root soup)).

(** [get_latest_term], given the page. *)
Definition latest_term_in (soup : node) : outcome (option string) :=
  match select_first_term_option soup with
  | Some opt =>
      match get_attr "value" opt.2 with
      | Some value => Returns (Some value)
      | None => Throws (KeyError "value")
      end
  | None => Returns None
  end.

Definition term_url (code : string) : string :=
  BASE +:+ "SU_DEGREE.p_select_term?P_PROGRAM=" +:+ code +:+ "&P_LANG=EN&P_LEVEL=UG".

(** [course.get('Prerequisites') or course.get('Corequisites')] as a
    truth value. *)
Definition has_requisites (course : Row) : bool :=
  match details course with
  | Some d => truthy (Prerequisites d) || truthy (Corequisites d)
  | None => false
  end.

Section Main.

Variable http_get : string -> option node.
Variable urljoin : string -> string -> string.
Variable tag_html : node -> string.

(** [os.makedirs(path, exist_ok=True)]: [false] when it raises. *)
Variable makedirs : string -> bool.

(** [open(path, 'w')] and [json.dump(records, f, indent=2)] in one:
    [false] when either raises. *)
Variable dump : string -> list Row -> bool.

Definition get_program_codes : result (gmap string string) :=
  match http_get LIST_URL with
  | None => Raise RequestException
  | Some soup => Ok (program_codes_in soup)
  end.

Definition get_latest_term (code : string) : outcome (option string) :=
  match http_get (term_url code) with
  | None => Throws (crawl_raised RequestException)
  | Some soup => latest_term_in soup
  end.

(** The body of the loop of [main] for one entry of [PROGRAM_FILES]
    (lines 432-452): the file written, if any, as its path and the
    records dumped into it.  Only what [crawl_program] raises with
    [urljoin] returning is passed on from it. *)
Definition main_for (programs : gmap string string) (code fname : string)
    : outcome (option (string * list Row)) :=
  match programs !! code with
  | None => Returns None
  | Some _ =>
      match get_latest_term code with
      | Throws r => Throws r
      | Returns None => Returns None
      | Returns (Some term) =>
          if negb (truthy term) then Returns None
          else
            match crawl_program http_get urljoin tag_html code term with
            | Raise e => Throws (crawl_raised e)
            | Ok [] => Returns None
            | Ok data =>
                let filtered_data := List.filter has_requisites data in
                match filtered_data with
                | [] => Returns None
                | _ =>
                    let full_path := COURSES_DIR +:+ "/" +:+ fname in
                    if dump full_path filtered_data
                    then Returns (Some (full_path, filtered_data))
                    else Throws OSError
                end
            end
      end
  end.

Fixpoint main_loop (programs : gmap string string) (files : list (string * string))
    : list (string * list Row) * option raised :=
  match files with
  | [] => ([], None)
  | (code, fname) :: rest =>
      match main_for programs code fname with
      | Throws r => ([], Some r)
      | Returns written =>
          let '(more, r) := main_loop programs rest in
          (option_list written ++ more, r)
      end
  end.

(** [main]: the files it has written, in order, and the exception it
    ended with, if any.  A file is its path ([os.path.join] with a
    slash) and the records [json.dump] wrote into it; the messages
    printed and the bytes of the file are left out. *)
Definition main : list (string * list Row) * option raised :=
  if makedirs COURSES_DIR then
    match get_program_codes with
    | Raise e => ([], Some (crawl_raised e))
    | Ok programs => main_loop programs PROGRAM_FILES
    end
  else ([], Some OSError).

End Main.

(** ** More predicates *)

(** No character of the string is whitespace. *)
Fixpoint no_space (s : string) : bool :=
  match s with
  | EmptyString => true
  | String c s' => negb (is_space c) && no_space s'
  end.

(** The rows of a stream whose concatenated major and code was not
    met earlier in the stream, in the order of the stream. *)
Fixpoint first_occurrences (stream : list Row) : list Row :=
  match stream with
  | [] => []
  | x :: rest =>
      x :: List.filter (fun y => negb (String.eqb (course_id y) (course_id x)))
             (first_occurrences rest)
  end.

(** The strings the loop of [_extract_detail_text] collects from
    siblings that hold no line break. *)
Definition part_of (sib : node) : string :=
  match sib with
  | Text s => strip s
  | Elem _ _ _ => get_text_strip " " sib
  end.

Definition no_break (sibs : list node) : Prop :=
  Forall (fun sib => name_is "br" sib = false) sibs.

(** The accumulators hold the first occurrences of a stream. *)
Definition holds_first_occurrences (st : state) (stream : list Row) : Prop :=
  results st = first_occurrences stream
  /\ forall id, id ∈ seen_courses st <-> id ∈ course_id <$> stream.

(** ** A sample site *)

Module Site.

(** The list of programs: two program links. *)
Definition programs_page : node :=
  Elem "[document]" []
    [ Elem "a" [("href", "SU_DEGREE.p_select_term?P_PROGRAM=BSCS&P_LANG=EN")]
        [Text " Computer Science "];
      Elem "a" [("href", "SU_DEGREE.p_select_term?P_PROGRAM=BSEE&P_LANG=EN")]
        [Text "Electronics"] ].

(** The terms of a program, latest first. *)
Definition terms_page : node :=
  Elem "[document]" []
    [ Elem "select" [("name", "P_TERM")]
        [ Elem "option" [("value", "202401")] [Text "Fall 2024"];
          Elem "option" [("value", "202302")] [Text "Spring 2024"] ] ].

(** A program page whose only zone sits in a table with an expand
    link for _CE2. *)
Definition zone_page : node :=
  Elem "[document]" []
    [ Elem "table" []
        [ Sample.tr [Elem "td" [] [Sample.ael_anchor; Sample.click Sample.href_ce2]] ] ].

(** A detail page with one line break after the label. *)
Definition one_break_page : node :=
  Elem "[document]" []
    [ Elem "span" [] [Text "Corequisites: "];
      Text " first "; Sample.br; Elem "b" [] [Text "second"] ].

(** The sample pages, the list of programs and the terms. *)
Definition get (url : string) : option node :=
  if String.eqb url LIST_URL then Some programs_page
  else if String.eqb url (term_url "BSCS") then Some terms_page
  else Sample.get url.

(** The sample pages with [zone_page] as the program page. *)
Definition get_zone (url : string) : option node :=
  if String.eqb url (program_url Sample.program_code Sample.term) then Some zone_page
  else Sample.get url.

Definition zone_state : state :=
  match crawl_program_state get_zone Sample.join_url Sample.html
          Sample.program_code Sample.term with
  | Ok st => st
  | Raise _ => initial_state
  end.

Definition written : list (string * list Row) * option raised :=
  main get Sample.join_url Sample.html (fun _ => true) (fun _ _ => true).

Definition row (major code name credit : string) (el_type : Category)
    (faculty_course : string) : Row :=
  {| Major := major; Code := code; Course_Name := name; ECTS := "6";
     Engineering := 0; Basic_Science := 0; SU_credit := credit; Faculty := "FENS";
     EL_Type := el_type; Faculty_Course := faculty_course; details := None |}.

(** The rows of the table of [Sample.page], parsed under required. *)
Definition required_rows : list Row :=
  [ row "CS" "201" "Intro to CS" "4" required "FENS"; Sample.math201 ].

(** The rows of [Sample.cel_page], parsed under a category. *)
Definition cel_rows (category : Category) : list Row :=
  [ row "CS" "300" "Data Structures" "3" category "No";
    row "CS" "201" "Intro again" "3" category "FENS" ].

Definition cs302 : Row := row "CS" "302" "Automata" "3" extra_attribute "No".

Definition the_zone_anchor : elt := ([0; 0; 0; 0], Sample.ael_anchor).

Definition the_one_break_span : elt := ([0], Elem "span" [] [Text "Corequisites: "]).

End Site.

(** ** [str(tag)], as BeautifulSoup prints a tag *)

Definition double_quote : ascii := ascii_of_N 34.

(** The entity substitution of the default formatter: the ampersand
    and the angle brackets are rewritten, every other character, the
    non-breaking space among them, is printed as it is. *)
Fixpoint escape_text (s : string) : string :=
  match s with
  | EmptyString => EmptyString
  | String c s' =>
      (if Ascii.eqb c "&"%char then "&amp;"
       else if Ascii.eqb c "<"%char then "&lt;"
       else if Ascii.eqb c ">"%char then "&gt;"
       else String c EmptyString)
      +:+ escape_text s'
  end.

Fixpoint replace_double_quotes (s : string) : string :=
  match s with
  | EmptyString => EmptyString
  | String c s' =>
      (if Ascii.eqb c double_quote then "&quot;" else String c EmptyString)
      +:+ replace_double_quotes s'
  end.

(** An attribute value between quotes: double quotes, single ones
    when the value holds a double quote and no single one. *)
Definition quoted_attribute_value (value : string) : string :=
  let dq := String double_quote EmptyString in
  if contains dq value then
    if contains "'" value
    then dq +:+ replace_double_quotes value +:+ dq
    else "'" +:+ value +:+ "'"
  else dq +:+ value +:+ dq.

Fixpoint attributes_markup (attrs : list (string * string)) : string :=
  match attrs with
  | [] => EmptyString
  | (k, v) :: rest =>
      " " +:+ k +:+ "=" +:+ quoted_attribute_value (escape_text v)
      +:+ attributes_markup rest
  end.

(** The tags printed without a closing tag when they are empty. *)
Definition empty_element_tags : list string :=
  [ "area"; "base"; "br"; "col"; "embed"; "hr"; "img"; "input"; "keygen";
    "link"; "menuitem"; "meta"; "param"; "source"; "track"; "wbr";
    "basefont"; "bgsound"; "command"; "frame"; "image"; "isindex"; "nextid";
    "spacer" ].

(** [str(tag)]: [tag.decode()] with the default formatter. *)
Fixpoint str_of_tag (n : node) : string :=
  match n with
  | Text s => escape_text s
  | Elem nm attrs cs =>
      match cs with
      | [] =>
          if mem nm empty_element_tags
          then "<" +:+ nm +:+ attributes_markup attrs +:+ "/>"
          else "<" +:+ nm +:+ attributes_markup attrs +:+ "></" +:+ nm +:+ ">"
      | _ =>
          "<" +:+ nm +:+ attributes_markup attrs +:+ ">"
          +:+ (fix go (cs : list node) : string :=
                 match cs with
                 | [] => EmptyString
                 | c :: cs' => str_of_tag c +:+ go cs'
                 end) cs
          +:+ "</" +:+ nm +:+ ">"
      end
  end.

(** ** Rows with the two asterisk markers *)

Module Starred.

(** What the parser makes of [&nbsp;*&nbsp;]: an asterisk between two
    non-breaking spaces. *)
Definition nbsp_star : string := String nbsp (String "*"%char (String nbsp EmptyString)).

Definition course_cells : list node :=
  [ Sample.td "CS 201"; Sample.td "Intro to CS"; Sample.td "6"; Sample.td "4";
    Sample.td "FENS" ].

(** [<tr><td><center>&nbsp;*&nbsp;</center></td>...], parsed. *)
Definition nbsp_cell : node := Elem "td" [] [Elem "center" [] [Text nbsp_star]].
Definition nbsp_row : elt := ([1], Sample.tr (nbsp_cell :: course_cells)).

(** [<tr><td><center> * </center></td>...], parsed. *)
Definition plain_row : elt := ([2], Sample.tr (Sample.starred :: course_cells)).

End Starred.

(** ** A page with two courses of one concatenation *)

Module Clash.

Definition href_more : string := "SU_DEGREE.p_list_courses?P_AREA=BSCS_REQ".

(** A required zone whose table lists CS 201 and then CS2 01, and a
    link to a list that has CS2 01 again. *)
Definition page : node :=
  Elem "[document]" []
    [ Sample.req_anchor;
      Elem "b" [] [Text "Required Courses"];
      Elem "table" []
        [ Sample.header_row;
          Sample.tr [Sample.td ""; Sample.td "CS 201"; Sample.td "Intro to CS";
                     Sample.td "6"; Sample.td "4"; Sample.td "FENS"];
          Sample.tr [Sample.td ""; Sample.td "CS2 01"; Sample.td "Seminar";
                     Sample.td "6"; Sample.td "3"; Sample.td "FENS"] ];
      Sample.click href_more ].

Definition more_page : node :=
  Sample.list_page
    [ Sample.tr [Sample.td ""; Sample.td "CS2 01"; Sample.td "Seminar";
                 Sample.td "6"; Sample.td "3"; Sample.td "FENS"] ].

Definition get (url : string) : option node :=
  if String.eqb url (program_url Sample.program_code Sample.term) then Some page
  else if contains "p_list_courses" url then Some more_page
  else None.

Definition final_state : state :=
  match crawl_program_state get Sample.join_url Sample.html
          Sample.program_code Sample.term with
  | Ok st => st
  | Raise _ => initial_state
  end.

Definition final_rows : list Row :=
  match crawl_program get Sample.join_url Sample.html
          Sample.program_code Sample.term with
  | Ok rows => rows
  | Raise _ => []
  end.


End Clash.



(** * Properties *)

(** ** Strings *)

Lemma is_space_nbsp : is_space nbsp = true.
Proof. reflexivity. Qed.

Lemma is_space_replaced c :
  is_space (if Ascii.eqb c nbsp then " "%char else c) = is_space c.
Proof.
  destruct (Ascii.eqb_spec c nbsp) as [->|]; reflexivity.
Qed.

Lemma split_from_replace_nbsp s : forall tok,
  is_space nbsp = true ->
  (forall c, is_space c = false -> (if Ascii.eqb c nbsp then " "%char else c) = c) ->
  split_from tok (replace_nbsp s) = split_from tok s.
Proof.
  induction s as [|c s IH]; intros tok Hn Hc; simpl; [reflexivity|].
  rewrite is_space_replaced.
  destruct (is_space c) eqn:E.
  - rewrite !IH by assumption. reflexivity.
  - rewrite (Hc c E). apply IH; assumption.
Qed.

Lemma not_space_kept c :
  is_space c = false -> (if Ascii.eqb c nbsp then " "%char else c) = c.
Proof.
  intros H. destruct (Ascii.eqb_spec c nbsp) as [->|]; [discriminate|reflexivity].
Qed.

Lemma split_replace_nbsp s : split (replace_nbsp s) = split s.
Proof.
  apply split_from_replace_nbsp; [reflexivity | apply not_space_kept].
Qed.


Lemma split_from_tok tok s :
  is_empty tok = false -> split_from tok s <> [].
Proof.
  revert tok. induction s as [|c s IH]; intros tok Ht; simpl.
  - rewrite Ht. discriminate.
  - destruct (is_space c).
    + rewrite Ht. discriminate.
    + apply IH. destruct tok; reflexivity.
Qed.

Lemma split_from_ink s : forall tok, has_ink s = true -> split_from tok s <> [].
Proof.
  induction s as [|c s IH]; intros tok H; simpl in *; [discriminate|].
  destruct (is_space c); simpl in H.
  - destruct (is_empty tok); [apply IH; assumption | discriminate].
  - apply split_from_tok. destruct tok; reflexivity.
Qed.

Lemma has_ink_app a b : has_ink (a +:+ b) = has_ink a || has_ink b.
Proof.
  induction a as [|c a IH]; simpl; [reflexivity|].
  rewrite IH. destruct (is_space c); reflexivity.
Qed.

Lemma lstrip_ink s : lstrip s <> "" -> has_ink (lstrip s) = true.
Proof.
  induction s as [|c s IH]; simpl; [congruence|].
  destruct (is_space c) eqn:E; [assumption|].
  intros _. simpl. rewrite E. reflexivity.
Qed.

Lemma rstrip_ink s : has_ink (rstrip s) = has_ink s.
Proof.
  induction s as [|c s IH]; simpl; [reflexivity|].
  destruct (rstrip s) as [|d r] eqn:E.
  - rewrite <- IH. destruct (is_space c) eqn:Ec; simpl; rewrite ?Ec; reflexivity.
  - simpl in *. rewrite IH. reflexivity.
Qed.

Lemma rstrip_empty_ink s : rstrip s = "" -> has_ink s = false.
Proof. intros H. rewrite <- rstrip_ink, H. reflexivity. Qed.

Lemma strip_ink s : truthy (strip s) = true -> has_ink (strip s) = true.
Proof.
  unfold strip. intros H. rewrite rstrip_ink.
  apply lstrip_ink. intros E. rewrite E in H. discriminate.
Qed.

Lemma join_empty_ink l :
  Forall (fun p => has_ink p = true) l -> truthy (join "" l) = true ->
  has_ink (join "" l) = true.
Proof.
  intros Hl. destruct Hl as [|p l Hp Hl]; simpl; [discriminate|].
  intros _. destruct l; [assumption|].
  rewrite has_ink_app, Hp. reflexivity.
Qed.

Lemma get_text_strip_ink n :
  truthy (get_text_strip "" n) = true -> has_ink (get_text_strip "" n) = true.
Proof.
  unfold get_text_strip. apply join_empty_ink.
  apply Forall_forall. intros p Hp.
  apply list_elem_of_In, filter_In in Hp. destruct Hp as [Hin Ht].
  apply in_map_iff in Hin. destruct Hin as (s & <- & _).
  apply strip_ink, Ht.
Qed.

Lemma has_ink_replace_nbsp s : has_ink (replace_nbsp s) = has_ink s.
Proof.
  induction s as [|c s IH]; simpl; [reflexivity|].
  rewrite is_space_replaced, IH. reflexivity.
Qed.

(** ** Rule tables *)

Ltac split_tests :=
  repeat match goal with
         | |- context [contains ?w ?s] =>
             let E := fresh "E" in destruct (contains w s) eqn:E; simpl
         | |- context [String.eqb ?a ?b] =>
             let E := fresh "E" in destruct (String.eqb a b) eqn:E; simpl
         end; try reflexivity.

(** C7.  The heading-text classifier is the rule table of section 4.1,
    rule 3, applied to the lower-cased title: university and courses,
    then required and courses, then core, area and free with elective,
    then the title "total" as university, and unknown otherwise. *)
Theorem map_category_heading_rules (title : string) :
  map_category title = first_match heading_rules (lower title) unknown.
Proof.
  unfold map_category, heading_rules, first_match, has_all, forallb.
  split_tests.
Qed.

Lemma zone_link_category_rules (area_code : string) :
  zone_link_category area_code = first_match link_target_rules area_code unknown.
Proof.
  unfold zone_link_category, link_target_rules, first_match, has_any, existsb.
  split_tests.
Qed.

Lemma sweep_link_category_rules (area_code : string) :
  sweep_link_category area_code = first_match sweep_rules area_code unknown.
Proof.
  unfold sweep_link_category, sweep_rules, first_match, has_any, existsb.
  split_tests.
Qed.

(** ** The faculty registry *)

Lemma first_such_elem {A} (f : A -> bool) (l : list A) (x : A) :
  first_such f l = Some x -> x ∈ l /\ f x = true.
Proof.
  unfold first_such. intros H.
  assert (In x (List.filter f l)) as Hin.
  { destruct (List.filter f l); simpl in H; [discriminate|].
    injection H as ->. left. reflexivity. }
  apply filter_In in Hin. destruct Hin. split; [apply list_elem_of_In|]; assumption.
Qed.

Lemma faculty_is_named (major code faculty : string) :
  get_faculty_for_course major code = Some faculty ->
  faculty ∈ ["FENS"; "FASS"; "SBS"].
Proof.
  unfold get_faculty_for_course. intros H.
  destruct (first_such _ FACULTY_COURSES) as [fc|] eqn:E; [|discriminate].
  injection H as <-. apply first_such_elem in E. destruct E as [Hin _].
  unfold FACULTY_COURSES in Hin.
  repeat (apply elem_of_cons in Hin; destruct Hin as [->|Hin]; [set_solver|]).
  inversion Hin.
Qed.

Lemma faculty_is_not_No (major code : string) :
  String.eqb (default "No" (get_faculty_for_course major code)) "No"
  = negb (found (get_faculty_for_course major code)).
Proof.
  destruct (get_faculty_for_course major code) as [f|] eqn:E; simpl; [|reflexivity].
  apply faculty_is_named in E.
  repeat (apply elem_of_cons in E; destruct E as [->|E]; [reflexivity|]).
  inversion E.
Qed.

(** ** The row parser *)

Section Rows.
Variable tag_html : node -> string.

(** What [parse_row] does, by the shape of the row. *)
Lemma parse_row_emits (category : Category) (tr : elt)
    (td0 td1 td2 td3 td4 : string) (more : list string) :
  cells tr = td0 :: td1 :: td2 :: td3 :: td4 :: more ->
  td1 <> "" ->
  exists major rest,
    split td1 = major :: rest
    /\ parse_row tag_html category tr
       = Ok (Some {| Major := major; Code := join "" rest;
                     Course_Name := td2; ECTS := td3;
                     Engineering := 0; Basic_Science := 0;
                     SU_credit := td4;
                     Faculty := match more with td5 :: _ => td5 | [] => "" end;
                     EL_Type :=
                       row_el_type (has_asterisk_in tag_html tr)
                         (default "No" (get_faculty_for_course major (join "" rest)))
                         category;
                     Faculty_Course :=
                       default "No" (get_faculty_for_course major (join "" rest));
                     details := None |}).
Proof.
  intros Hc Hne. unfold parse_row. fold (cells tr). rewrite Hc.
  assert (truthy td1 = true) as Ht by (destruct td1; [congruence|reflexivity]).
  rewrite Ht, split_replace_nbsp.
  assert (has_ink td1 = true) as Hink.
  { assert (td1 ∈ cells tr) as Hin by (rewrite Hc; set_solver).
    unfold cells in Hin. apply list_elem_of_fmap in Hin.
    destruct Hin as (td & -> & _). apply get_text_strip_ink, Ht. }
  destruct (split td1) as [|major rest] eqn:Es.
  { exfalso. revert Es. apply split_from_ink, Hink. }
  exists major, rest. split; [reflexivity|].
  destruct rest as [|r rest]; reflexivity.
Qed.

Lemma parse_row_skips (category : Category) (tr : elt) :
  ~ (5 <= List.length (cells tr) /\ exists s, cells tr !! 1 = Some s /\ s <> "") ->
  parse_row tag_html category tr = Ok None.
Proof.
  intros H. unfold parse_row. fold (cells tr).
  destruct (cells tr) as [|td0 [|td1 [|td2 [|td3 [|td4 more]]]]]; try reflexivity.
  destruct td1; [reflexivity|].
  exfalso. apply H. split; [simpl; lia|]. eexists. split; [reflexivity|discriminate].
Qed.


Lemma parse_row_outcome (category : Category) (tr : elt) :
  exists o, row_outcome tag_html category tr o.
Proof.
  unfold row_outcome.
  destruct (decide (5 <= List.length (cells tr))) as [Hlen|Hlen].
  - destruct (cells tr) as [|td0 [|td1 [|td2 [|td3 [|td4 more]]]]] eqn:Hc;
      try (simpl in Hlen; lia).
    destruct (decide (td1 = "")) as [->|Hne].
    + exists None. split; [|split].
      * apply parse_row_skips. rewrite Hc. intros (_ & s & Hs & Hne).
        simpl in Hs. injection Hs as <-. exact (Hne eq_refl).
      * split; [intros [? [=]]|]. intros (_ & s & Hs & Hne).
        simpl in Hs. injection Hs as <-. destruct (Hne eq_refl).
      * intros r [=].
    + destruct (parse_row_emits category tr _ _ _ _ _ _ Hc Hne)
        as (major & rest & Hs & Hp).
      eexists. split; [exact Hp|split].
      * split; [|intros _; eexists; reflexivity].
        intros _. split; [simpl; lia|]. exists td1. split; [reflexivity|exact Hne].
      * intros r [= <-]. exists td1, major, rest. simpl. auto.
  - exists None. split; [|split].
    + apply parse_row_skips. intros [? _]. contradiction.
    + split; [intros [? [=]]|]. intros [? _]. contradiction.
    + intros r [=].
Qed.

Lemma parse_rows_outcomes (category : Category) (trs : list elt) :
  exists outcomes : list (option Row),
    parse_rows tag_html category trs = Ok (omap id outcomes)
    /\ Forall2 (row_outcome tag_html category) trs outcomes.
Proof.
  induction trs as [|tr trs (os & Hp & Hf)].
  - exists []. split; [reflexivity|constructor].
  - destruct (parse_row_outcome category tr) as (o & Ho).
    exists (o :: os). split; [|constructor; assumption].
    simpl. destruct Ho as (-> & _). simpl. rewrite Hp. simpl.
    destruct o; reflexivity.
Qed.

Lemma data_rows_header (table : elt) :
  match find_all "tr" table with
  | [] => data_rows table = []
  | tr0 :: rest =>
      (find_all "th" tr0 <> [] -> data_rows table = rest)
      /\ (find_all "th" tr0 = [] -> data_rows table = tr0 :: rest)
  end.
Proof.
  unfold data_rows. destruct (find_all "tr" table) as [|tr0 rest]; [reflexivity|].
  split; intros H.
  - destruct (find_all "th" tr0); [congruence|]. reflexivity.
  - rewrite H. reflexivity.
Qed.

(** C9.  The row parser drops the first row exactly when that row
    holds header cells; every remaining row is parsed without an
    error and yields a record exactly when it has at least five
    cells and a non-empty identity cell; the record's major is the
    first whitespace-separated token of that cell and its code the
    remaining tokens joined with nothing between them; the table's
    result is the records of its rows, in order. *)
Theorem parse_table_contract (table : elt) (category : Category) :
  match find_all "tr" table with
  | [] => data_rows table = []
  | tr0 :: rest =>
      (find_all "th" tr0 <> [] -> data_rows table = rest)
      /\ (find_all "th" tr0 = [] -> data_rows table = tr0 :: rest)
  end
  /\ exists outcomes : list (option Row),
      parse_table tag_html table category = Ok (omap id outcomes)
      /\ Forall2 (fun tr o =>
           parse_row tag_html category tr = Ok o
           /\ (is_Some o <->
               5 <= List.length (cells tr)
               /\ exists s, cells tr !! 1 = Some s /\ s <> "")
           /\ (forall r, o = Some r ->
               exists s major rest,
                 cells tr !! 1 = Some s /\ split s = major :: rest
                 /\ Major r = major /\ Code r = join "" rest))
         (data_rows table) outcomes.
Proof.
  split; [apply data_rows_header|].
  apply parse_rows_outcomes.
Qed.

Lemma parse_table_total (table : elt) (category : Category) :
  exists rows, parse_table tag_html table category = Ok rows.
Proof.
  destruct (parse_rows_outcomes category (data_rows table)) as (os & H & _).
  eexists. exact H.
Qed.

Lemma parse_rows_member (category : Category) (trs : list elt) (rows : list Row) :
  parse_rows tag_html category trs = Ok rows ->
  forall r, r ∈ rows <-> exists tr, tr ∈ trs /\ parse_row tag_html category tr = Ok (Some r).
Proof.
  revert rows. induction trs as [|tr trs IH]; intros rows H r; simpl in H.
  - injection H as <-. split; [intros Hr; inversion Hr|].
    intros (tr & Htr & _). inversion Htr.
  - destruct (parse_row tag_html category tr) as [o|e] eqn:Eo; [|discriminate].
    simpl in H.
    destruct (parse_rows tag_html category trs) as [rows'|e] eqn:Er; [|discriminate].
    simpl in H. injection H as <-.
    rewrite elem_of_app, (IH rows' eq_refl r). split.
    + intros [Hr|(tr' & Htr' & Hp)].
      * exists tr. split; [left|]. destruct o; simpl in Hr; [|inversion Hr].
        apply list_elem_of_singleton in Hr. subst. exact Eo.
      * exists tr'. split; [right|]; assumption.
    + intros (tr' & Htr' & Hp). apply elem_of_cons in Htr'.
      destruct Htr' as [->|Htr'].
      * left. rewrite Eo in Hp. injection Hp as ->. simpl. left.
      * right. exists tr'. split; assumption.
Qed.

(** The asterisk rule, for a row whose first cell passes the test of
    line 177.  Such a row whose identity is in the faculty course
    lists is stored with
    [EL_Type] core when the category handed to the parser is
    required, and with that category unchanged when it is area or
    free. *)
Theorem asterisk_override (table : elt) (category : Category)
    (rows : list Row) (tr : elt) (r : Row) :
  parse_table tag_html table category = Ok rows ->
  tr ∈ data_rows table ->
  parse_row tag_html category tr = Ok (Some r) ->
  has_asterisk_in tag_html tr = true ->
  get_faculty_for_course (Major r) (Code r) <> None ->
  r ∈ rows
  /\ (category = required -> EL_Type r = core)
  /\ (category = area \/ category = free -> EL_Type r = category).
Proof.
  intros Ht Htr Hp Hast Hfac. split.
  { apply (parse_rows_member category (data_rows table) rows Ht). eauto. }
  destruct (parse_row_outcome category tr) as (o & Ho & Hiff & _).
  rewrite Hp in Ho. injection Ho as <-.
  destruct Hiff as [Hc _]. destruct (Hc (mk_is_Some _ _ eq_refl)) as (Hlen & s & Hs & Hne).
  destruct (cells tr) as [|td0 [|td1 [|td2 [|td3 [|td4 more]]]]] eqn:Hcells;
    try (simpl in Hlen; lia).
  injection Hs as ->.
  destruct (parse_row_emits category tr _ _ _ _ _ _ Hcells Hne)
    as (major & rest & _ & Hp').
  rewrite Hp' in Hp. injection Hp as <-. simpl in *.
  unfold row_el_type. rewrite Hast, faculty_is_not_No.
  destruct (get_faculty_for_course major (join "" rest)); [|congruence].
  simpl. split.
  - intros ->. reflexivity.
  - intros [-> | ->]; reflexivity.
Qed.

End Rows.

(** ** The label extractor *)


Lemma lstrip_starts s : lstrip s <> "" -> starts_ink (lstrip s) = true.
Proof.
  induction s as [|c s IH]; simpl; [congruence|].
  destruct (is_space c) eqn:E; [assumption|].
  intros _. simpl. rewrite E. reflexivity.
Qed.

Lemma rstrip_starts s : rstrip s <> "" -> starts_ink (rstrip s) = starts_ink s.
Proof.
  destruct s as [|c s]; simpl; [congruence|].
  destruct (rstrip s); [|reflexivity].
  destruct (is_space c) eqn:E; [congruence|].
  intros _. unfold starts_ink. simpl. rewrite ?E. reflexivity.
Qed.

Lemma rstrip_ends s : rstrip s <> "" -> ends_ink (rstrip s) = true.
Proof.
  induction s as [|c s IH]; simpl; [congruence|].
  destruct (rstrip s) as [|d r] eqn:E.
  - destruct (is_space c) eqn:Ec; [congruence|]. intros _. simpl. rewrite Ec. reflexivity.
  - intros _. apply IH. discriminate.
Qed.

Lemma strip_trimmed s : truthy (strip s) = true -> trimmed (strip s).
Proof.
  unfold strip. intros H.
  assert (rstrip (lstrip s) <> "") as Hne.
  { intros E. rewrite E in H. discriminate. }
  split; [|apply rstrip_ends, Hne].
  rewrite rstrip_starts by exact Hne. apply lstrip_starts.
  intros E. rewrite E in Hne. apply Hne. reflexivity.
Qed.

Lemma lstrip_fixed s : starts_ink s = true -> lstrip s = s.
Proof.
  destruct s as [|c s]; simpl; [reflexivity|].
  intros H. apply negb_true_iff in H. rewrite H. reflexivity.
Qed.

Lemma rstrip_fixed s : ends_ink s = true -> rstrip s = s.
Proof.
  induction s as [|c s IH]; [reflexivity|]. simpl.
  destruct s as [|d s].
  - simpl. intros H. apply negb_true_iff in H. rewrite H. reflexivity.
  - intros H. rewrite (IH H). reflexivity.
Qed.

Lemma strip_fixed s : trimmed s -> strip s = s.
Proof.
  intros [Hs He]. unfold strip. rewrite (lstrip_fixed s Hs). apply rstrip_fixed, He.
Qed.

Lemma starts_ink_app a b : starts_ink a = true -> starts_ink (a +:+ b) = true.
Proof. destruct a; simpl; [discriminate|auto]. Qed.

Lemma ends_ink_app a b : ends_ink b = true -> ends_ink (a +:+ b) = true.
Proof.
  intros H. induction a as [|c a IH]; simpl; [exact H|].
  destruct (a +:+ b) eqn:E; [|exact IH].
  destruct a; simpl in E; [|discriminate]. subst. discriminate.
Qed.

Lemma join_trimmed sep l :
  Forall trimmed l -> l <> [] -> trimmed (join sep l).
Proof.
  induction 1 as [|p l [Hs He] Hl IH]; [congruence|]. intros _.
  destruct l as [|q l]; [split; assumption|].
  change (join sep (p :: q :: l)) with (p +:+ sep +:+ join sep (q :: l)).
  destruct IH as [_ IHe]; [discriminate|].
  split; [apply starts_ink_app, Hs|].
  apply ends_ink_app, ends_ink_app, IHe.
Qed.

Lemma strip_join sep l : Forall trimmed l -> strip (join sep l) = join sep l.
Proof.
  intros H. destruct l as [|p l]; [reflexivity|].
  apply strip_fixed, join_trimmed; [assumption|discriminate].
Qed.

Lemma get_text_strip_trimmed sep n :
  truthy (get_text_strip sep n) = true -> trimmed (get_text_strip sep n).
Proof.
  unfold get_text_strip. intros H.
  apply join_trimmed.
  - apply Forall_forall. intros p Hp.
    apply list_elem_of_In, filter_In in Hp. destruct Hp as [Hin Ht].
    apply in_map_iff in Hin. destruct Hin as (s & <- & _).
    apply strip_trimmed, Ht.
  - intros E. rewrite E in H. discriminate.
Qed.

Lemma collect_parts_trimmed sibs : forall started,
  Forall trimmed (List.filter truthy (collect_parts started sibs)).
Proof.
  induction sibs as [|sib rest IH]; intros started; simpl; [constructor|].
  destruct (name_is "br" sib).
  { destruct started; [constructor|apply IH]. }
  simpl. destruct (truthy _) eqn:Ht; [|apply IH].
  constructor; [|apply IH].
  destruct sib; [apply strip_trimmed|apply get_text_strip_trimmed]; exact Ht.
Qed.

(** The final [strip()] of [_extract_detail_text] changes nothing. *)
Lemma extract_detail_text_joined (soup : node) (label : string) (span : elt) :
  find_label_span soup label = Some span ->
  _extract_detail_text soup label
  = join " " (List.filter truthy
                (collect_parts false (snd <$> next_siblings soup span))).
Proof.
  intros H. unfold _extract_detail_text. rewrite H.
  apply strip_join, collect_parts_trimmed.
Qed.

(** C2, as the code has it.  When the label's node is followed by the
    text [value1], a line break, the text [value2], a second line
    break and anything else, the extractor returns the trimmed
    [value1] and the trimmed [value2], empty ones dropped, joined by
    one space: collection runs up to the second break and nothing
    after it is read. *)
Theorem extract_up_to_second_break (soup : node) (label : string) (span : elt)
    (value1 value2 : string) (break1 break2 : node) (trailing : list node) :
  find_label_span soup label = Some span ->
  snd <$> next_siblings soup span
    = Text value1 :: break1 :: Text value2 :: break2 :: trailing ->
  name_is "br" break1 = true ->
  name_is "br" break2 = true ->
  _extract_detail_text soup label
  = join " " (List.filter truthy [strip value1; strip value2]).
Proof.
  intros Hspan Hsibs Hb1 Hb2.
  rewrite (extract_detail_text_joined soup label span Hspan), Hsibs.
  simpl. rewrite Hb1. simpl. rewrite Hb2. reflexivity.
Qed.

(** ** Merging *)

Lemma first_such_app_l {A} (f : A -> bool) (l l' : list A) (x : A) :
  first_such f l = Some x -> first_such f (l ++ l') = Some x.
Proof.
  unfold first_such. rewrite List.filter_app.
  destruct (List.filter f l); simpl; [discriminate|auto].
Qed.

Lemma first_such_none {A} (f : A -> bool) (l : list A) :
  (forall x, x ∈ l -> f x = false) -> first_such f l = None.
Proof.
  unfold first_such. induction l as [|a l IH]; intros H; simpl; [reflexivity|].
  rewrite (H a) by left. apply IH. intros x Hx. apply H. right. exact Hx.
Qed.

Lemma first_such_app_r {A} (f : A -> bool) (l l' : list A) :
  (forall x, x ∈ l -> f x = false) -> first_such f (l ++ l') = first_such f l'.
Proof.
  unfold first_such. induction l as [|a l IH]; intros H; simpl; [reflexivity|].
  rewrite (H a) by left. apply IH. intros x Hx. apply H. right. exact Hx.
Qed.



Lemma merged_initial : merged initial_state [].
Proof.
  split; simpl.
  - intros id. split; [set_solver|]. intros (r & Hr & _). inversion Hr.
  - constructor.
  - intros r Hr. inversion Hr.
  - intros x Hx. inversion Hx.
Qed.

Lemma merged_add_row (st : state) (stream : list Row) (row : Row) :
  merged st stream -> merged (add_row st row) (stream ++ [row]).
Proof.
  intros [K1 K2 K3 K4]. unfold add_row.
  destruct (bool_decide (course_id row ∈ seen_courses st)) eqn:E.
  - apply bool_decide_eq_true in E. split; try assumption.
    + intros r Hr. apply first_such_app_l, K3, Hr.
    + intros x Hx. apply elem_of_app in Hx. destruct Hx as [Hx|Hx]; [auto|].
      apply list_elem_of_singleton in Hx. subst. exact E.
  - apply bool_decide_eq_false in E. split; simpl.
    + intros id. rewrite elem_of_union, elem_of_singleton, K1. split.
      * intros [(r & Hr & Hid)| ->].
        -- exists r. split; [apply elem_of_app; left|]; assumption.
        -- exists row. split; [apply elem_of_app; right; left|reflexivity].
      * intros (r & Hr & Hid). apply elem_of_app in Hr. destruct Hr as [Hr|Hr].
        -- left. eauto.
        -- apply list_elem_of_singleton in Hr. subst. right. reflexivity.
    + rewrite fmap_app. apply NoDup_app. split; [exact K2|]. split.
      * intros id Hid Hid'. simpl in Hid'. apply list_elem_of_singleton in Hid'. subst.
        apply list_elem_of_fmap in Hid. destruct Hid as (r & Hid & Hr).
        apply E, K1. eauto.
      * simpl. apply NoDup_singleton.
    + intros r Hr. apply elem_of_app in Hr. destruct Hr as [Hr|Hr].
      * apply first_such_app_l, K3, Hr.
      * apply list_elem_of_singleton in Hr. subst r.
        rewrite first_such_app_r.
        -- unfold first_such. simpl. rewrite bool_decide_eq_true_2 by reflexivity.
           reflexivity.
        -- intros x Hx. apply bool_decide_eq_false. intros Heq.
           apply E. rewrite <- Heq. apply K4, Hx.
    + intros x Hx. apply elem_of_union. apply elem_of_app in Hx.
      destruct Hx as [Hx|Hx]; [left; auto|].
      apply list_elem_of_singleton in Hx. subst. right. apply elem_of_singleton. reflexivity.
Qed.

Lemma merged_merge_rows (new_rows : list Row) : forall (st : state) (stream : list Row),
  merged st stream -> merged (merge_rows new_rows st) (stream ++ new_rows).
Proof.
  unfold merge_rows.
  induction new_rows as [|row rest IH]; intros st stream H; simpl.
  - rewrite app_nil_r. exact H.
  - replace (stream ++ row :: rest) with ((stream ++ [row]) ++ rest)
      by (rewrite <- app_assoc; reflexivity).
    apply IH, merged_add_row, H.
Qed.

Lemma trace_add_row (st : state) (row : Row) : trace (add_row st row) = trace st.
Proof. unfold add_row. destruct (bool_decide _); reflexivity. Qed.

Lemma trace_merge_rows (new_rows : list Row) : forall st,
  trace (merge_rows new_rows st) = trace st.
Proof.
  unfold merge_rows. induction new_rows as [|row rest IH]; intros st; simpl;
    [reflexivity|].
  rewrite IH. apply trace_add_row.
Qed.

Lemma merged_record (ev : event) (st : state) (stream : list Row) :
  merged st stream -> merged (record ev st) stream.
Proof. intros [K1 K2 K3 K4]. split; assumption. Qed.

Lemma produced_snoc (tr : list event) (ev : event) :
  produced (tr ++ [ev]) = produced tr ++ produced [ev].
Proof. unfold produced. rewrite flat_map_app. reflexivity. Qed.


Lemma state_merged_zone (a : elt) (c : Category) (st : state) :
  state_merged st -> state_merged (record (zone_entered a c) st).
Proof.
  unfold state_merged. intros H. simpl. rewrite produced_snoc. simpl.
  rewrite app_nil_r. apply merged_record, H.
Qed.

Lemma state_merged_rows (src : origin) (c : Category) (new_rows : list Row) (st : state) :
  state_merged st ->
  state_merged (merge_rows new_rows (record (rows_parsed src c new_rows) st)).
Proof.
  unfold state_merged. intros H. rewrite trace_merge_rows. simpl.
  rewrite produced_snoc. simpl. rewrite app_nil_r.
  apply merged_merge_rows, merged_record, H.
Qed.

(** ** Runs *)

Section Crawl.
Variable http_get : string -> option node.
Variable urljoin : string -> string -> string.
Variable tag_html : node -> string.

Lemma crawl_list_raises (url : string) (category : Category) (e : exn) :
  crawl_list http_get tag_html url category = Raise e ->
  e = RequestException /\ http_get url = None.
Proof.
  unfold crawl_list. destruct (http_get url) as [soup|].
  - destruct (find "table" (root soup)) as [table|]; [|discriminate].
    destruct (parse_table_total tag_html table category) as (rows & ->).
    discriminate.
  - intros [= <-]. auto.
Qed.

Lemma crawl_list_needs_page (url : string) (category : Category) (rows : list Row) :
  crawl_list http_get tag_html url category = Ok rows -> http_get url <> None.
Proof. unfold crawl_list. destruct (http_get url); [discriminate|discriminate]. Qed.

Lemma follow_links_run (a : elt) (links : list elt) :
  forall (el_type : Category) (st st' : state),
  follow_links http_get urljoin tag_html a el_type links st = Ok st' ->
  exists evs,
    link_run http_get urljoin tag_html a el_type links evs
    /\ trace st' = trace st ++ evs
    /\ (state_merged st -> state_merged st').
Proof.
  induction links as [|link rest IH]; intros el_type st st' H; simpl in H.
  - injection H as <-. exists []. rewrite app_nil_r.
    split; [constructor|auto].
  - destruct (crawl_list _ _ _ _) as [new_rows|] eqn:Ec; [|discriminate].
    simpl in H. apply IH in H. destruct H as (evs & Hrun & Htr & Hm).
    eexists. split; [|split].
    + eapply link_run_cons; eassumption.
    + rewrite Htr, trace_merge_rows. simpl. rewrite <- app_assoc. reflexivity.
    + intros Hst. apply Hm, state_merged_rows, Hst.
Qed.

Lemma visit_anchor_run (soup : node) (st : state) (a : elt) (st' : state) :
  visit_anchor http_get urljoin tag_html soup st a = Ok st' ->
  exists evs,
    zone_run http_get urljoin tag_html soup a evs
    /\ trace st' = trace st ++ evs
    /\ (state_merged st -> state_merged st').
Proof.
  unfold visit_anchor, zone_run.
  destruct (is_zone_anchor _); simpl.
  2:{ intros [= <-]. exists []. rewrite app_nil_r. auto. }
  destruct (locate_table soup a) as [table|].
  - destruct (parse_table tag_html table _) as [new_rows|] eqn:Ep; [|discriminate].
    simpl. intros H. apply follow_links_run in H.
    destruct H as (evs & Hrun & Htr & Hm).
    eexists. split; [|split].
    + eexists _, evs. split; [reflexivity|]. split; [|exact Hrun].
      eexists. split; reflexivity.
    + rewrite Htr, trace_merge_rows. simpl.
      rewrite <- !app_assoc. reflexivity.
    + intros Hst. apply Hm, state_merged_rows, state_merged_zone, Hst.
  - simpl. intros H. apply follow_links_run in H.
    destruct H as (evs & Hrun & Htr & Hm).
    eexists. split; [|split].
    + eexists [], evs. split; [reflexivity|]. split; [reflexivity|exact Hrun].
    + rewrite Htr. simpl. rewrite <- !app_assoc. reflexivity.
    + intros Hst. apply Hm, state_merged_zone, Hst.
Qed.

Lemma visit_click_link_run (st : state) (click_link : elt) (st' : state) :
  visit_click_link http_get urljoin tag_html st click_link = Ok st' ->
  exists evs,
    sweep_run http_get urljoin tag_html click_link evs
    /\ trace st' = trace st ++ evs
    /\ (state_merged st -> state_merged st').
Proof.
  unfold visit_click_link, sweep_run.
  destruct (area_code_of _) as [area_code|].
  - destruct (crawl_list _ _ _ _) as [new_rows|] eqn:Ec; [|discriminate].
    simpl. intros [= <-]. eexists. split; [|split].
    + eexists. split; reflexivity.
    + rewrite trace_merge_rows. reflexivity.
    + apply state_merged_rows.
  - intros [= <-]. exists []. rewrite app_nil_r. auto.
Qed.

Lemma for_each_run {A} (body : state -> A -> result state)
    (run : A -> list event -> Prop) :
  (forall st x st', body st x = Ok st' ->
     exists evs, run x evs /\ trace st' = trace st ++ evs
                 /\ (state_merged st -> state_merged st')) ->
  forall (l : list A) (st st' : state),
  for_each body l st = Ok st' ->
  exists evss,
    Forall2 run l evss
    /\ trace st' = trace st ++ concat evss
    /\ (state_merged st -> state_merged st').
Proof.
  intros Hbody. induction l as [|x l IH]; intros st st' H; simpl in H.
  - injection H as <-. exists []. simpl. rewrite app_nil_r.
    split; [constructor|auto].
  - destruct (body st x) as [st1|] eqn:Eb; [|discriminate]. simpl in H.
    apply Hbody in Eb. destruct Eb as (evs & Hrun & Htr & Hm).
    apply IH in H. destruct H as (evss & Hruns & Htr' & Hm').
    exists (evs :: evss). split; [constructor; assumption|]. split.
    + rewrite Htr', Htr. simpl. rewrite <- app_assoc. reflexivity.
    + auto.
Qed.

(** A run that ends well is the zone pass over the named anchors
    followed by the sweep over the list links, and its accumulators
    are the merge of the rows its trace produced. *)
Lemma crawl_page_run (soup : node) (st : state) :
  crawl_page http_get urljoin tag_html soup = Ok st ->
  exists zone_evs sweep_evs,
    Forall2 (zone_run http_get urljoin tag_html soup)
      (select_named_anchors soup) zone_evs
    /\ Forall2 (sweep_run http_get urljoin tag_html)
         (find_list_links (root soup)) sweep_evs
    /\ trace st = concat zone_evs ++ concat sweep_evs
    /\ state_merged st.
Proof.
  unfold crawl_page. intros H.
  destruct (for_each (visit_anchor _ _ _ soup) _ _) as [st1|] eqn:E1; [|discriminate].
  simpl in H.
  apply (for_each_run _ _ (visit_anchor_run soup)) in E1.
  apply (for_each_run _ _ visit_click_link_run) in H.
  destruct E1 as (zs & Hz & Htz & Hmz). destruct H as (ss & Hs & Hts & Hms).
  exists zs, ss. split; [exact Hz|]. split; [exact Hs|]. split.
  - rewrite Hts, Htz. reflexivity.
  - apply Hms, Hmz. exact merged_initial.
Qed.

Lemma crawl_program_state_page (code term : string) (st : state) :
  crawl_program_state http_get urljoin tag_html code term = Ok st ->
  exists soup,
    http_get (program_url code term) = Some soup
    /\ crawl_page http_get urljoin tag_html soup = Ok st.
Proof.
  unfold crawl_program_state.
  destruct (http_get (program_url code term)) as [soup|]; [eauto|discriminate].
Qed.

End Crawl.

(** ** What the trace of a run holds *)

Lemma Forall2_concat_elem {A B} (R : A -> list B -> Prop) (l : list A)
    (yss : list (list B)) (y : B) :
  Forall2 R l yss -> y ∈ concat yss ->
  exists x ys, x ∈ l /\ R x ys /\ y ∈ ys /\ forall y', y' ∈ ys -> y' ∈ concat yss.
Proof.
  induction 1 as [|x ys l yss HR _ IH]; simpl; intros Hy; [inversion Hy|].
  apply elem_of_app in Hy. destruct Hy as [Hy|Hy].
  - exists x, ys. split; [left|]. split; [exact HR|]. split; [exact Hy|].
    intros y' Hy'. apply elem_of_app. auto.
  - destruct (IH Hy) as (x' & ys' & Hx' & HR' & Hy' & Hsub).
    exists x', ys'. split; [right; exact Hx'|]. split; [exact HR'|].
    split; [exact Hy'|]. intros y' Hin. apply elem_of_app. auto.
Qed.

Lemma Forall2_elem_concat {A B} (R : A -> list B -> Prop) (l : list A)
    (yss : list (list B)) (x : A) :
  Forall2 R l yss -> x ∈ l ->
  exists ys, R x ys /\ forall y, y ∈ ys -> y ∈ concat yss.
Proof.
  induction 1 as [|x' ys l yss HR _ IH]; intros Hx; [inversion Hx|].
  apply elem_of_cons in Hx. destruct Hx as [->|Hx].
  - exists ys. split; [exact HR|]. intros y Hy. simpl. apply elem_of_app. auto.
  - destruct (IH Hx) as (ys' & HR' & Hsub). exists ys'. split; [exact HR'|].
    intros y Hy. simpl. apply elem_of_app. auto.
Qed.


Lemma carried_category_nil (c : Category) : carried_category c [] = c.
Proof. reflexivity. Qed.

Lemma carried_category_cons (c : Category) (link : elt) (earlier : list elt) :
  carried_category c (link :: earlier)
  = carried_category
      (match area_code_of (href_of link) with
       | Some area_code => zone_link_category area_code
       | None => c
       end) earlier.
Proof.
  unfold carried_category. simpl.
  destruct (area_code_of (href_of link)) as [ac|]; [|reflexivity].
  rewrite last_cons. destruct (last _); reflexivity.
Qed.

Section Trace.
Variable http_get : string -> option node.
Variable urljoin : string -> string -> string.
Variable tag_html : node -> string.

Lemma row_el_type_cases (has_asterisk : bool) (faculty_course : string)
    (category : Category) :
  row_el_type has_asterisk faculty_course category = category
  \/ (category = required
      /\ row_el_type has_asterisk faculty_course category = core).
Proof.
  unfold row_el_type.
  destruct (has_asterisk && negb (String.eqb faculty_course "No")); simpl; [|auto].
  destruct category; simpl; auto.
Qed.

Lemma parse_row_parsed (category : Category) (tr : elt) (r : Row) :
  parse_row tag_html category tr = Ok (Some r) ->
  details r = None
  /\ (EL_Type r = category \/ (category = required /\ EL_Type r = core)).
Proof.
  unfold parse_row.
  destruct (_ <$> find_all "td" tr) as [|td0 [|td1 [|td2 [|td3 [|td4 more]]]]];
    try discriminate.
  destruct (truthy td1); [|discriminate].
  destruct (split _) as [|major rest]; [discriminate|].
  intros [= <-]. simpl. split; [reflexivity|apply row_el_type_cases].
Qed.

Lemma parse_table_parsed (table : elt) (category : Category) (rows : list Row) :
  parse_table tag_html table category = Ok rows -> parsed_under category rows.
Proof.
  intros H r Hr.
  apply (parse_rows_member tag_html category _ rows H) in Hr.
  destruct Hr as (tr & _ & Hp). eapply parse_row_parsed, Hp.
Qed.

Lemma crawl_list_parsed (url : string) (category : Category) (rows : list Row) :
  crawl_list http_get tag_html url category = Ok rows -> parsed_under category rows.
Proof.
  unfold crawl_list. destruct (http_get url) as [soup|]; [|discriminate].
  destruct (find "table" (root soup)) as [table|].
  - apply parse_table_parsed.
  - intros [= <-] r Hr. inversion Hr.
Qed.

(** Every event of the link loop is a batch fetched through a link
    of the zone. *)
Lemma link_run_events (a : elt) (el_type : Category) (links : list elt)
    (evs : list event) :
  link_run http_get urljoin tag_html a el_type links evs ->
  forall ev, ev ∈ evs ->
    exists link category new_rows,
      link ∈ links
      /\ ev = rows_parsed (from_zone_link a (href_of link)) category new_rows
      /\ crawl_list http_get tag_html (urljoin BASE (href_of link)) category
         = Ok new_rows.
Proof.
  induction 1 as [|el_type link rest new_rows evs href el_type' Hc _ IH];
    intros ev Hev; [inversion Hev|].
  apply elem_of_cons in Hev. destruct Hev as [->|Hev].
  - exists link, el_type', new_rows. split; [left|auto].
  - destruct (IH ev Hev) as (l & c & rows & Hl & He & Hcl).
    exists l, c, rows. split; [right|]; auto.
Qed.

(** Every link of the loop was fetched, under the category carried
    to it. *)
Lemma link_run_fetched (a : elt) (earlier : list elt) (link : elt)
    (later : list elt) :
  forall (el_type : Category) (evs : list event),
  link_run http_get urljoin tag_html a el_type (earlier ++ link :: later) evs ->
  let category := carried_category el_type (earlier ++ [link]) in
  exists new_rows,
    crawl_list http_get tag_html (urljoin BASE (href_of link)) category = Ok new_rows
    /\ rows_parsed (from_zone_link a (href_of link)) category new_rows ∈ evs.
Proof.
  induction earlier as [|l earlier IH]; intros el_type evs H; simpl in *.
  - inversion H as [|? ? ? new_rows evs' href el_type' Hc Hrest]; subst.
    rewrite carried_category_cons, carried_category_nil.
    exists new_rows. split; [exact Hc|left].
  - inversion H as [|? ? ? new_rows evs' href el_type' Hc Hrest]; subst.
    rewrite carried_category_cons.
    destruct (IH _ _ Hrest) as (rows & Hcl & Hin).
    exists rows. split; [exact Hcl|right; exact Hin].
Qed.

Lemma carried_category_no_area (c : Category) (earlier : list elt) (link : elt) :
  area_code_of (href_of link) = None ->
  carried_category c (earlier ++ [link]) = carried_category c earlier.
Proof.
  intros H. unfold carried_category. rewrite omap_app. simpl. rewrite H.
  simpl. rewrite app_nil_r. reflexivity.
Qed.

Lemma zone_run_events (soup : node) (a : elt) (evs : list event) (ev : event) :
  zone_run http_get urljoin tag_html soup a evs -> ev ∈ evs ->
  is_zone_anchor (default "" (get_attr "name" a.2)) = true
  /\ match ev with
     | zone_entered a' c =>
         a' = a
         /\ c = anchor_category (default "" (get_attr "name" a.2))
                (category_title_of soup a)
     | rows_parsed (from_zone_table a' table) c new_rows =>
         a' = a /\ locate_table soup a = Some table
         /\ parse_table tag_html table c = Ok new_rows
     | rows_parsed (from_zone_link a' href) c new_rows =>
         a' = a
         /\ exists link, link ∈ zone_links soup a /\ href = href_of link
            /\ crawl_list http_get tag_html (urljoin BASE href) c = Ok new_rows
     | rows_parsed (from_sweep_link _) _ _ => False
     end.
Proof.
  unfold zone_run. destruct (is_zone_anchor _); [|intros -> Hev; inversion Hev].
  intros (tevs & levs & -> & Ht & Hl) Hev. split; [reflexivity|].
  apply elem_of_cons in Hev. destruct Hev as [->|Hev]; [auto|].
  apply elem_of_app in Hev. destruct Hev as [Hev|Hev].
  - destruct (locate_table soup a) as [table|]; [|subst; inversion Hev].
    destruct Ht as (rows & Hp & ->).
    apply list_elem_of_singleton in Hev. subst ev. auto.
  - destruct (link_run_events _ _ _ _ Hl ev Hev) as (link & c & rows & Hin & -> & Hc).
    split; [reflexivity|]. exists link. auto.
Qed.

Lemma sweep_run_events (link : elt) (evs : list event) (ev : event) :
  sweep_run http_get urljoin tag_html link evs -> ev ∈ evs ->
  exists area_code new_rows,
    area_code_of (href_of link) = Some area_code
    /\ ev = rows_parsed (from_sweep_link (href_of link))
              (sweep_link_category area_code) new_rows
    /\ crawl_list http_get tag_html (urljoin BASE (href_of link))
         (sweep_link_category area_code) = Ok new_rows.
Proof.
  unfold sweep_run. destruct (area_code_of _) as [ac|]; [|intros -> Hev; inversion Hev].
  intros (rows & Hc & ->) Hev. apply list_elem_of_singleton in Hev. subst.
  exists ac, rows. auto.
Qed.

(** Every batch in the trace of a run is as the parser left it. *)
Lemma crawl_page_sound (soup : node) (st : state) :
  crawl_page http_get urljoin tag_html soup = Ok st ->
  forall ev, ev ∈ trace st -> event_sound ev.
Proof.
  intros H ev Hev. apply crawl_page_run in H.
  destruct H as (zs & ss & Hz & Hs & Htr & _). rewrite Htr in Hev.
  apply elem_of_app in Hev. destruct Hev as [Hev|Hev].
  - destruct (Forall2_concat_elem _ _ _ _ Hz Hev) as (a & evs & _ & Hrun & Hin & _).
    destruct (zone_run_events soup a evs ev Hrun Hin) as [_ Hk].
    destruct ev as [|[a' t|a' href|href] c rows]; simpl; [exact I| | |contradiction].
    + destruct Hk as (_ & _ & Hp). eapply parse_table_parsed, Hp.
    + destruct Hk as (_ & link & _ & _ & Hc). eapply crawl_list_parsed, Hc.
  - destruct (Forall2_concat_elem _ _ _ _ Hs Hev) as (l & evs & _ & Hrun & Hin & _).
    destruct (sweep_run_events l evs ev Hrun Hin) as (ac & rows & _ & -> & Hc).
    simpl. eapply crawl_list_parsed, Hc.
Qed.

Lemma produced_elem (tr : list event) (r : Row) :
  r ∈ produced tr ->
  exists src category new_rows,
    rows_parsed src category new_rows ∈ tr /\ r ∈ new_rows.
Proof.
  unfold produced. intros H. apply list_elem_of_In, in_flat_map in H.
  destruct H as (ev & Hev & Hr). destruct ev as [|src c rows]; [inversion Hr|].
  exists src, c, rows. split; apply list_elem_of_In; assumption.
Qed.

Lemma results_without_details (soup : node) (st : state) (r : Row) :
  crawl_page http_get urljoin tag_html soup = Ok st ->
  r ∈ results st -> r ∈ produced (trace st) /\ details r = None.
Proof.
  intros H Hr.
  destruct (crawl_page_run _ _ _ soup st H) as (zs & ss & _ & _ & _ & Hm).
  assert (r ∈ produced (trace st)) as Hp.
  { apply (results_are_first _ _ Hm) in Hr. apply first_such_elem in Hr. tauto. }
  split; [exact Hp|].
  destruct (produced_elem _ _ Hp) as (src & c & rows & Hev & Hin).
  apply (crawl_page_sound soup st H) in Hev. simpl in Hev.
  apply Hev, Hin.
Qed.

End Trace.

(** ** Properties of a run *)

Lemma wants_details_iff (r : Row) :
  wants_details r = true <->
  EL_Type r = required \/ EL_Type r = university
  \/ ((EL_Type r = core \/ EL_Type r = area) /\ (Major r = "CS" \/ Major r = "DSA")).
Proof.
  unfold wants_details, mem, existsb.
  rewrite !orb_true_iff, andb_true_iff, !orb_true_iff, !bool_decide_eq_true.
  rewrite !String.eqb_eq. intuition discriminate.
Qed.

Lemma is_zone_anchor_iff (name : string) :
  is_zone_anchor name = true <->
  endswith "_CEL" name = true \/ endswith "_REQ" name = true
  \/ endswith "_AEL" name = true \/ endswith "_ARE" name = true
  \/ startswith "main" name = true.
Proof.
  unfold is_zone_anchor. rewrite !orb_true_iff. tauto.
Qed.

Section Claims.
Variable http_get : string -> option node.
Variable urljoin : string -> string -> string.
Variable tag_html : node -> string.

(** C8.  In the list [crawl_program] returns, a record carries the
    detail fields exactly when its [EL_Type] is required or
    university, or its [EL_Type] is core or area and its major is CS
    or DSA; the fields are then those [get_course_details] returns
    for its major and code, and every other record is as the parser
    left it. *)
Theorem details_selection (code term : string) (rows : list Row) (r : Row) :
  crawl_program http_get urljoin tag_html code term = Ok rows ->
  r ∈ rows ->
  (is_Some (details r) <->
   EL_Type r = required \/ EL_Type r = university
   \/ ((EL_Type r = core \/ EL_Type r = area)
       /\ (Major r = "CS" \/ Major r = "DSA")))
  /\ (forall d, details r = Some d ->
      d = get_course_details http_get term (Major r) (Code r)).
Proof.
  unfold crawl_program. intros H Hr.
  destruct (crawl_program_state _ _ _ code term) as [st|] eqn:Est; [|discriminate].
  simpl in H. injection H as <-.
  apply crawl_program_state_page in Est. destruct Est as (soup & _ & Hpage).
  apply list_elem_of_fmap in Hr. destruct Hr as (r0 & -> & Hr0).
  destruct (results_without_details _ _ _ soup st r0 Hpage Hr0) as [_ Hd].
  unfold add_details. destruct (wants_details r0) eqn:Ew.
  - simpl. split.
    + split; [intros _; apply wants_details_iff, Ew|intros _; eexists; reflexivity].
    + intros d [= <-]. reflexivity.
  - rewrite Hd. split.
    + split; [intros [? [=]]|].
      intros Hw. apply wants_details_iff in Hw. congruence.
    + intros d [=].
Qed.



(** C6.  In a run that ends well, an [a] tag of the page enters the
    zone pass exactly when it has a name attribute that ends with
    _CEL, _REQ, _AEL or _ARE or starts with main; an anchor that
    enters is classified from its name and title, and when the
    locator finds its table that table is parsed under that
    category and its rows reach the merge. *)
Theorem zone_anchor_guard (code term : string) (soup : node) (st : state) (a : elt) :
  http_get (program_url code term) = Some soup ->
  crawl_program_state http_get urljoin tag_html code term = Ok st ->
  a ∈ descendants_of (root soup) ->
  name_is "a" a.2 = true ->
  ((exists c, zone_entered a c ∈ trace st) <->
   exists name,
     get_attr "name" a.2 = Some name
     /\ (endswith "_CEL" name = true \/ endswith "_REQ" name = true
         \/ endswith "_AEL" name = true \/ endswith "_ARE" name = true
         \/ startswith "main" name = true))
  /\ (forall c, zone_entered a c ∈ trace st ->
      c = anchor_category (default "" (get_attr "name" a.2))
            (category_title_of soup a)
      /\ forall table, locate_table soup a = Some table ->
         exists new_rows,
           parse_table tag_html table c = Ok new_rows
           /\ rows_parsed (from_zone_table a table) c new_rows ∈ trace st).
Proof.
  intros Hget Hst Ha Hname. unfold crawl_program_state in Hst. rewrite Hget in Hst.
  destruct (crawl_page_run _ _ _ soup st Hst) as (zs & ss & Hz & Hs & Htr & _).
  assert (forall c, zone_entered a c ∈ trace st ->
            exists evs, zone_run http_get urljoin tag_html soup a evs
                        /\ zone_entered a c ∈ evs
                        /\ forall ev, ev ∈ evs -> ev ∈ trace st) as Hfrom.
  { intros c Hev. rewrite Htr in Hev. apply elem_of_app in Hev.
    destruct Hev as [Hev|Hev].
    - destruct (Forall2_concat_elem _ _ _ _ Hz Hev)
        as (a' & evs & Ha' & Hrun & Hin & Hsub).
      destruct (zone_run_events _ _ _ soup a' evs _ Hrun Hin) as [_ [<- _]].
      exists evs. split; [exact Hrun|]. split; [exact Hin|].
      intros ev Hev'. rewrite Htr. apply elem_of_app. left. apply Hsub, Hev'.
    - destruct (Forall2_concat_elem _ _ _ _ Hs Hev) as (l & evs & _ & Hrun & Hin & _).
      destruct (sweep_run_events _ _ _ l evs _ Hrun Hin) as (? & ? & _ & [=] & _). }
  split; [split|].
  - intros (c & Hev). destruct (Hfrom c Hev) as (evs & Hrun & Hin & _).
    destruct (zone_run_events _ _ _ soup a evs _ Hrun Hin) as [Hz' _].
    destruct (get_attr "name" a.2) as [name|] eqn:En; [|discriminate].
    exists name. split; [reflexivity|]. apply is_zone_anchor_iff, Hz'.
  - intros (name & En & Hd).
    assert (a ∈ select_named_anchors soup) as Hsel.
    { unfold select_named_anchors. apply list_elem_of_In, filter_In.
      split; [apply list_elem_of_In, Ha|]. rewrite Hname, En. reflexivity. }
    destruct (Forall2_elem_concat _ _ _ a Hz Hsel) as (evs & Hrun & Hsub).
    unfold zone_run in Hrun. rewrite En in Hrun. simpl in Hrun.
    apply is_zone_anchor_iff in Hd. rewrite Hd in Hrun.
    destruct Hrun as (t1 & l1 & -> & _). eexists.
    rewrite Htr. apply elem_of_app. left. apply Hsub. left.
  - intros c Hev. destruct (Hfrom c Hev) as (evs & Hrun & Hin & Hsub).
    destruct (zone_run_events _ _ _ soup a evs _ Hrun Hin) as [Hz' [_ ->]].
    split; [reflexivity|]. intros table Ht.
    unfold zone_run in Hrun. rewrite Hz', Ht in Hrun.
    destruct Hrun as (t1 & l1 & -> & (rows & Hp & ->) & _).
    exists rows. split; [exact Hp|]. apply Hsub. right. left.
Qed.

End Claims.

Section Links.
Variable http_get : string -> option node.
Variable urljoin : string -> string -> string.
Variable tag_html : node -> string.

(** C10.  In a run that ends well, a link of an entered zone whose
    target has no P_AREA parameter is fetched and parsed under the
    category current at that point of the zone's link loop: the
    category of the last earlier link of the zone that had an area
    code, or the zone's own category when no earlier link had one.
    Its rows are stored with that category (core, by the asterisk
    rule, when it is required). *)
Theorem link_without_area_keeps_category (code term : string) (soup : node)
    (st : state) (a : elt) (earlier : list elt) (link : elt) (later : list elt) :
  http_get (program_url code term) = Some soup ->
  crawl_program_state http_get urljoin tag_html code term = Ok st ->
  a ∈ select_named_anchors soup ->
  is_zone_anchor (default "" (get_attr "name" a.2)) = true ->
  zone_links soup a = earlier ++ link :: later ->
  area_code_of (href_of link) = None ->
  let zone_category :=
    anchor_category (default "" (get_attr "name" a.2)) (category_title_of soup a) in
  let category := carried_category zone_category earlier in
  exists new_rows,
    crawl_list http_get tag_html (urljoin BASE (href_of link)) category = Ok new_rows
    /\ rows_parsed (from_zone_link a (href_of link)) category new_rows ∈ trace st
    /\ forall r, r ∈ new_rows ->
         EL_Type r = category \/ (category = required /\ EL_Type r = core).
Proof.
  intros Hget Hst Ha Hz Hlinks Harea zone_category category.
  unfold crawl_program_state in Hst. rewrite Hget in Hst.
  destruct (crawl_page_run _ _ _ soup st Hst) as (zs & ss & Hzs & _ & Htr & _).
  destruct (Forall2_elem_concat _ _ _ a Hzs Ha) as (evs & Hrun & Hsub).
  unfold zone_run in Hrun. rewrite Hz, Hlinks in Hrun.
  destruct Hrun as (t1 & l1 & -> & _ & Hl).
  apply link_run_fetched in Hl. rewrite carried_category_no_area in Hl by exact Harea.
  destruct Hl as (rows & Hc & Hin). exists rows. split; [exact Hc|]. split.
  - rewrite Htr. apply elem_of_app. left. apply Hsub.
    right. apply elem_of_app. right. exact Hin.
  - intros r Hr. eapply crawl_list_parsed; eassumption.
Qed.

(** The table of the sweep.  In a run that ends well, the sweep
    fetches every list link of the page that carries a P_AREA code
    and parses it under the category its own table gives that
    code: _CEL, _COR, _CE1, _CE2, _C1 or _C2 is core, then _REQ is
    required, _AEL or _ARE area, _FEL or _FRE free, UC_ university,
    _PHL or _MEL required, anything else unknown.  The batches of
    the sweep are exactly these. *)
Theorem sweep_uses_its_own_rules (code term : string) (soup : node) (st : state) :
  http_get (program_url code term) = Some soup ->
  crawl_program_state http_get urljoin tag_html code term = Ok st ->
  (forall link area_code,
     link ∈ find_list_links (root soup) ->
     area_code_of (href_of link) = Some area_code ->
     let category := first_match sweep_rules area_code unknown in
     exists new_rows,
       crawl_list http_get tag_html (urljoin BASE (href_of link)) category
       = Ok new_rows
       /\ rows_parsed (from_sweep_link (href_of link)) category new_rows ∈ trace st
       /\ forall r, r ∈ new_rows ->
            EL_Type r = category \/ (category = required /\ EL_Type r = core))
  /\ (forall href category new_rows,
        rows_parsed (from_sweep_link href) category new_rows ∈ trace st ->
        exists link area_code,
          link ∈ find_list_links (root soup) /\ href = href_of link
          /\ area_code_of href = Some area_code
          /\ category = first_match sweep_rules area_code unknown).
Proof.
  intros Hget Hst. unfold crawl_program_state in Hst. rewrite Hget in Hst.
  destruct (crawl_page_run _ _ _ soup st Hst) as (zs & ss & Hzs & Hss & Htr & _).
  split.
  - intros link ac Hlink Harea category.
    destruct (Forall2_elem_concat _ _ _ link Hss Hlink) as (evs & Hrun & Hsub).
    unfold sweep_run in Hrun. rewrite Harea in Hrun.
    destruct Hrun as (rows & Hc & ->).
    unfold category. rewrite <- sweep_link_category_rules.
    exists rows. split; [exact Hc|]. split.
    + rewrite Htr. apply elem_of_app. right. apply Hsub. left.
    + intros r Hr. eapply crawl_list_parsed; eassumption.
  - intros href category rows Hev. rewrite Htr in Hev.
    apply elem_of_app in Hev. destruct Hev as [Hev|Hev].
    + destruct (Forall2_concat_elem _ _ _ _ Hzs Hev) as (a & evs & _ & Hrun & Hin & _).
      destruct (zone_run_events _ _ _ soup a evs _ Hrun Hin) as [_ []].
    + destruct (Forall2_concat_elem _ _ _ _ Hss Hev)
        as (link & evs & Hlink & Hrun & Hin & _).
      destruct (sweep_run_events _ _ _ link evs _ Hrun Hin)
        as (ac & rows' & Harea & [= -> -> ->] & _).
      exists link, ac. rewrite sweep_link_category_rules. auto.
Qed.

Lemma follow_links_raises (a : elt) (links : list elt) :
  forall (el_type : Category) (st : state) (e : exn),
  follow_links http_get urljoin tag_html a el_type links st = Raise e ->
  e = RequestException.
Proof.
  induction links as [|link rest IH]; intros el_type st e H; simpl in H;
    [discriminate|].
  destruct (crawl_list _ _ _ _) as [rows|e'] eqn:Ec; simpl in H.
  - eapply IH, H.
  - injection H as <-. eapply crawl_list_raises, Ec.
Qed.

Lemma visit_anchor_raises (soup : node) (st : state) (a : elt) (e : exn) :
  visit_anchor http_get urljoin tag_html soup st a = Raise e ->
  e = RequestException.
Proof.
  unfold visit_anchor. destruct (is_zone_anchor _); simpl; [|discriminate].
  destruct (locate_table soup a) as [table|]; simpl.
  - destruct (parse_table_total tag_html table
                (anchor_category (default "" (get_attr "name" a.2))
                   (category_title_of soup a))) as (rows & ->).
    simpl. apply follow_links_raises.
  - apply follow_links_raises.
Qed.

Lemma visit_click_link_raises (st : state) (link : elt) (e : exn) :
  visit_click_link http_get urljoin tag_html st link = Raise e ->
  e = RequestException.
Proof.
  unfold visit_click_link. destruct (area_code_of _); [|discriminate].
  destruct (crawl_list _ _ _ _) as [rows|e'] eqn:Ec; simpl; [discriminate|].
  intros [= <-]. eapply crawl_list_raises, Ec.
Qed.

Lemma for_each_raises {A} (body : state -> A -> result state) (e0 : exn) :
  (forall st x e, body st x = Raise e -> e = e0) ->
  forall (l : list A) (st : state) (e : exn),
  for_each body l st = Raise e -> e = e0.
Proof.
  intros Hbody. induction l as [|x l IH]; intros st e H; simpl in H; [discriminate|].
  destruct (body st x) as [st1|e1] eqn:Eb; simpl in H.
  - eapply IH, H.
  - injection H as <-. eapply Hbody, Eb.
Qed.

Lemma crawl_page_raises (soup : node) (e : exn) :
  crawl_page http_get urljoin tag_html soup = Raise e -> e = RequestException.
Proof.
  unfold crawl_page.
  destruct (for_each (visit_anchor _ _ _ soup) _ _) as [st1|e1] eqn:E1; simpl.
  - apply for_each_raises. intros st x. apply visit_click_link_raises.
  - intros [= <-]. revert E1. apply for_each_raises.
    intros st x. apply visit_anchor_raises.
Qed.

Lemma link_run_member (a : elt) (el_type : Category) (links : list elt)
    (evs : list event) (link : elt) :
  link_run http_get urljoin tag_html a el_type links evs -> link ∈ links ->
  http_get (urljoin BASE (href_of link)) <> None.
Proof.
  intros Hrun Hin. apply list_elem_of_split in Hin.
  destruct Hin as (earlier & later & ->).
  apply link_run_fetched in Hrun. destruct Hrun as (rows & Hc & _).
  eapply crawl_list_needs_page, Hc.
Qed.

(** C3, as the code has it.  A fetch that fails while following an
    expand link is not absorbed: when the page of a link of an
    entered zone, or of a list link carrying a P_AREA code, cannot
    be fetched, [crawl_program] raises the request error and
    returns no list. *)
Theorem failed_link_aborts (code term : string) (soup : node) (link : elt) :
  http_get (program_url code term) = Some soup ->
  http_get (urljoin BASE (href_of link)) = None ->
  (link ∈ find_list_links (root soup) /\ area_code_of (href_of link) <> None)
  \/ (exists a, a ∈ select_named_anchors soup
                /\ is_zone_anchor (default "" (get_attr "name" a.2)) = true
                /\ link ∈ zone_links soup a) ->
  crawl_program http_get urljoin tag_html code term = Raise RequestException.
Proof.
  intros Hget Hfail Hlink. unfold crawl_program, crawl_program_state.
  rewrite Hget.
  destruct (crawl_page http_get urljoin tag_html soup) as [st|e] eqn:Ep.
  - exfalso.
    destruct (crawl_page_run _ _ _ soup st Ep) as (zs & ss & Hzs & Hss & _ & _).
    destruct Hlink as [[Hin Harea]|(a & Ha & Hz & Hin)].
    + destruct (Forall2_elem_concat _ _ _ link Hss Hin) as (evs & Hrun & _).
      unfold sweep_run in Hrun.
      destruct (area_code_of (href_of link)) as [ac|]; [|congruence].
      destruct Hrun as (rows & Hc & _).
      apply crawl_list_needs_page in Hc. congruence.
    + destruct (Forall2_elem_concat _ _ _ a Hzs Ha) as (evs & Hrun & _).
      unfold zone_run in Hrun. rewrite Hz in Hrun.
      destruct Hrun as (t1 & l1 & _ & _ & Hl).
      apply (link_run_member _ _ _ _ link Hl Hin), Hfail.
  - apply crawl_page_raises in Ep. subst. reflexivity.
Qed.

End Links.

(** ** The properties on the sample pages *)

Ltac by_computation := vm_compute; reflexivity.
Ltac in_list := apply list_elem_of_In; vm_compute; tauto.

(** On the sample page the sweep parses the _CE2 link as core. *)
Lemma sweep_sample_ce2 :
  exists new_rows,
    crawl_list Sample.get Sample.html (Sample.join_url BASE Sample.href_ce2) core
    = Ok new_rows
    /\ rows_parsed (from_sweep_link Sample.href_ce2) core new_rows
       ∈ trace Sample.final_state.
Proof.
  destruct (sweep_uses_its_own_rules Sample.get Sample.join_url Sample.html
              Sample.program_code Sample.term Sample.page Sample.final_state)
    as [H _]; [by_computation | by_computation |].
  destruct (H Sample.the_ce2_link "BSCS_CE2") as (rows & Hc & Hev & _);
    [in_list | by_computation |].
  exists rows. split; [exact Hc | exact Hev].
Defined.

(** The link-target rules give extra_attribute where the sweep gave
    core. *)
Lemma sweep_sample_refutes_link_target_rules : ~ sweep_follows_link_target_rules.
Proof.
  intros H.
  destruct (H Sample.get Sample.join_url Sample.html Sample.program_code Sample.term
              Sample.final_state Sample.href_ce2 core
              [ {| Major := "CS"; Code := "302"; Course_Name := "Automata";
                   ECTS := "6"; Engineering := 0; Basic_Science := 0;
                   SU_credit := "3"; Faculty := "FENS"; EL_Type := core;
                   Faculty_Course := "No"; details := None |} ])
    as (ac & Hac & Hcat); [by_computation | in_list |].
  vm_compute in Hac. injection Hac as <-. vm_compute in Hcat. discriminate.
Qed.

(** C1.  The sweep does not apply the link-target rules.  For the
    area code BSCS_CE2 the link-target rules and the table of the
    zone pass give extra_attribute, and a zone whose expand link
    carries that code has its rows parsed under extra_attribute; the
    table of the sweep gives core, so that on the sample page, where
    the same link is met by the sweep only, CS 302 is parsed under
    core and returned as core.  For BSCS_C2 the sweep gives core and
    for BSCS_PHL and BSCS_MEL required, where the link-target rules
    and the zone pass give extra_attribute. *)
Theorem sweep_misses_extra_attribute :
  first_match link_target_rules "BSCS_CE2" unknown = extra_attribute
  /\ zone_link_category "BSCS_CE2" = extra_attribute
  /\ sweep_link_category "BSCS_CE2" = core
  /\ rows_parsed (from_zone_link Site.the_zone_anchor Sample.href_ce2)
       extra_attribute [Site.cs302] ∈ trace Site.zone_state
  /\ Sample.the_ce2_link ∈ find_list_links (root Sample.page)
  /\ area_code_of (href_of Sample.the_ce2_link) = Some "BSCS_CE2"
  /\ crawl_program Sample.get Sample.join_url Sample.html
       Sample.program_code Sample.term = Ok Sample.final_rows
  /\ rows_parsed (from_sweep_link Sample.href_ce2) core
       [Site.row "CS" "302" "Automata" "3" core "No"] ∈ trace Sample.final_state
  /\ (forall r, r ∈ Sample.final_rows -> identity r = ("CS", "302") ->
        EL_Type r = core)
  /\ (exists r, r ∈ Sample.final_rows /\ identity r = ("CS", "302"))
  /\ (forall area_code, area_code ∈ ["BSCS_C2"; "BSCS_PHL"; "BSCS_MEL"] ->
        first_match link_target_rules area_code unknown = extra_attribute
        /\ zone_link_category area_code = extra_attribute
        /\ sweep_link_category area_code <> extra_attribute)
  /\ sweep_link_category "BSCS_C2" = core
  /\ sweep_link_category "BSCS_PHL" = required
  /\ sweep_link_category "BSCS_MEL" = required.
Proof.
  repeat match goal with |- _ /\ _ => split end;
    try by_computation; try in_list.
  - intros r Hr. apply list_elem_of_In in Hr. vm_compute in Hr.
    repeat (destruct Hr as [<-|Hr]; [vm_compute; try discriminate; reflexivity|]).
    destruct Hr.
  - eexists. split; [|shelve]. apply list_elem_of_In. vm_compute.
    do 4 right. left. reflexivity.
    Unshelve. reflexivity.
  - intros area_code Hin. apply list_elem_of_In in Hin.
    destruct Hin as [<-|[<-|[<-|[]]]]; vm_compute; repeat split; discriminate.
Qed.

(** C5.  The test of line 177 misses the marker written with
    non-breaking spaces.  A row whose first cell is
    [<center>&nbsp;*&nbsp;</center>] reaches the parser with the two
    entities decoded, and [str] prints the decoded characters, not
    the entities: neither pattern occurs in the printed cell, and
    the row CS 201, a faculty course, parsed under required, is
    stored as required.  The same row with plain spaces around the
    asterisk is stored as core. *)
Theorem nbsp_marker_is_missed :
  str_of_tag Starred.nbsp_cell
  = "<td><center>" +:+ Starred.nbsp_star +:+ "</center></td>"
  /\ Starred.nbsp_row.2 = Sample.tr (Starred.nbsp_cell :: Starred.course_cells)
  /\ has_asterisk_in str_of_tag Starred.nbsp_row = false
  /\ get_faculty_for_course "CS" "201" = Some "FENS"
  /\ (forall category,
        parse_row str_of_tag category Starred.nbsp_row
        = Ok (Some (Site.row "CS" "201" "Intro to CS" "4" category "FENS")))
  /\ has_asterisk_in str_of_tag Starred.plain_row = true
  /\ parse_row str_of_tag required Starred.plain_row
     = Ok (Some (Site.row "CS" "201" "Intro to CS" "4" core "FENS")).
Proof.
  repeat match goal with |- _ /\ _ => split end; by_computation.
Qed.


Lemma extract_sample :
  _extract_detail_text Sample.detail_page "Prerequisites" = "value1 value2".
Proof.
  apply (extract_up_to_second_break Sample.detail_page "Prerequisites"
           Sample.the_span "value1" "value2" Sample.br Sample.br [Text "trailing"]);
    by_computation.
Defined.

Lemma extract_sample_refutes_first_value : ~ extract_returns_first_value.
Proof.
  intros H.
  specialize (H Sample.detail_page "Prerequisites" Sample.the_span
                "value1" "value2" Sample.br Sample.br [Text "trailing"]).
  assert (_extract_detail_text Sample.detail_page "Prerequisites" = "value1") as E
    by (apply H; by_computation).
  vm_compute in E. discriminate.
Qed.

Lemma failed_link_sample :
  crawl_program Sample.get_page_only Sample.join_url Sample.html
    Sample.program_code Sample.term
  = Raise RequestException.
Proof.
  apply (failed_link_aborts Sample.get_page_only Sample.join_url Sample.html
           Sample.program_code Sample.term Sample.page Sample.the_ce2_link);
    [by_computation | by_computation |].
  left. split; [in_list | vm_compute; discriminate].
Defined.

Lemma failed_link_sample_refutes_absorption : ~ link_failures_absorbed.
Proof.
  intros H.
  destruct (H Sample.get_page_only Sample.join_url Sample.html
              Sample.program_code Sample.term Sample.page) as (rows & Hrows);
    [by_computation|].
  vm_compute in Hrows. discriminate.
Qed.


Lemma asterisk_sample : EL_Type Sample.math201 = core.
Proof.
  refine (proj1 (proj2 (asterisk_override Sample.html Sample.the_table required
                          [ {| Major := "CS"; Code := "201";
                               Course_Name := "Intro to CS"; ECTS := "6";
                               Engineering := 0; Basic_Science := 0;
                               SU_credit := "4"; Faculty := "FENS";
                               EL_Type := required; Faculty_Course := "FENS";
                               details := None |};
                            Sample.math201 ]
                          Sample.the_starred_row Sample.math201 _ _ _ _ _)) eq_refl);
    [by_computation | in_list | by_computation | by_computation
    | vm_compute; discriminate].
Defined.

Lemma zone_anchor_sample :
  exists c, zone_entered Sample.the_req_anchor c ∈ trace Sample.final_state.
Proof.
  destruct (zone_anchor_guard Sample.get Sample.join_url Sample.html
              Sample.program_code Sample.term Sample.page Sample.final_state
              Sample.the_req_anchor) as [[_ H] _];
    [by_computation | by_computation | in_list | by_computation |].
  apply H. exists "BSCS_REQ". split; [reflexivity|]. right. left. reflexivity.
Defined.

Lemma details_sample : is_Some (details Sample.cs201).
Proof.
  destruct (details_selection Sample.get Sample.join_url Sample.html
              Sample.program_code Sample.term Sample.final_rows Sample.cs201)
    as [[_ H] _]; [by_computation | in_list |].
  apply H. left. reflexivity.
Defined.

Lemma link_without_area_sample :
  exists new_rows,
    crawl_list Sample.get Sample.html (Sample.join_url BASE Sample.href_plain) core
    = Ok new_rows
    /\ rows_parsed (from_zone_link Sample.the_ael_anchor Sample.href_plain) core
         new_rows ∈ trace Sample.final_state.
Proof.
  destruct (link_without_area_keeps_category Sample.get Sample.join_url Sample.html
              Sample.program_code Sample.term Sample.page Sample.final_state
              Sample.the_ael_anchor [Sample.the_cel_link] Sample.the_plain_link [])
    as (rows & Hc & Hev & _);
    [by_computation | by_computation | in_list | by_computation
    | by_computation | by_computation |].
  exists rows. split; [exact Hc | exact Hev].
Defined.

(** * Further properties *)

(** ** Rows, once parsed *)

Lemma no_space_app (a b : string) :
  no_space (a +:+ b) = no_space a && no_space b.
Proof.
  induction a as [|c a IH]; simpl; [reflexivity|].
  rewrite IH. destruct (is_space c); reflexivity.
Qed.

Lemma split_from_tokens (s : string) : forall (tok t : string),
  no_space tok = true -> t ∈ split_from tok s ->
  t <> "" /\ no_space t = true.
Proof.
  induction s as [|c s IH]; intros tok t Htok Ht; simpl in Ht.
  - destruct tok as [|d tok]; simpl in Ht; [inversion Ht|].
    apply list_elem_of_singleton in Ht. subst. split; [discriminate|exact Htok].
  - destruct (is_space c) eqn:Ec.
    + destruct tok as [|d tok]; simpl in Ht.
      * apply (IH "" t); [reflexivity|exact Ht].
      * apply elem_of_cons in Ht. destruct Ht as [->|Ht].
        -- split; [discriminate|exact Htok].
        -- apply (IH "" t); [reflexivity|exact Ht].
    + apply (IH (tok +:+ String c "") t); [|exact Ht].
      rewrite no_space_app, Htok. simpl. rewrite Ec. reflexivity.
Qed.

Lemma join_no_space (l : list string) :
  Forall (fun t => no_space t = true) l -> no_space (join "" l) = true.
Proof.
  induction 1 as [|t l Ht Hl IH]; [reflexivity|].
  destruct l as [|u l]; [exact Ht|].
  change (join "" (t :: u :: l)) with (t +:+ "" +:+ join "" (u :: l)).
  rewrite !no_space_app, Ht, IH. reflexivity.
Qed.

Lemma is_faculty_course_found (major code : string) :
  is_faculty_course major code = found (get_faculty_for_course major code).
Proof.
  unfold is_faculty_course.
  destruct (get_faculty_for_course major code); reflexivity.
Qed.

Section Parsed.
Variable tag_html : node -> string.

(** What a row that [parse_row] emits looks like, in one place. *)
Lemma parse_row_shape (category : Category) (tr : elt) (r : Row) :
  parse_row tag_html category tr = Ok (Some r) ->
  exists td1 major rest,
    cells tr !! 1 = Some td1 /\ split td1 = major :: rest
    /\ Major r = major /\ Code r = join "" rest
    /\ Engineering r = 0%Z /\ Basic_Science r = 0%Z /\ details r = None
    /\ Faculty_Course r = default "No" (get_faculty_for_course major (join "" rest))
    /\ EL_Type r
       = row_el_type (has_asterisk_in tag_html tr) (Faculty_Course r) category
    /\ Course_Name r = default "" (cells tr !! 2)
    /\ ECTS r = default "" (cells tr !! 3)
    /\ SU_credit r = default "" (cells tr !! 4)
    /\ Faculty r = default "" (cells tr !! 5).
Proof.
  intros Hp.
  destruct (parse_row_outcome tag_html category tr) as (o & Ho & Hiff & _).
  rewrite Hp in Ho. injection Ho as <-.
  destruct Hiff as [Hc _].
  destruct (Hc (mk_is_Some _ _ eq_refl)) as (Hlen & s & Hs & Hne).
  destruct (cells tr) as [|td0 [|td1 [|td2 [|td3 [|td4 more]]]]] eqn:Hcells;
    try (simpl in Hlen; lia).
  injection Hs as ->.
  destruct (parse_row_emits tag_html category tr _ _ _ _ _ _ Hcells Hne)
    as (major & rest & Hsplit & Hp').
  rewrite Hp' in Hp. injection Hp as <-. simpl.
  exists s, major, rest. repeat (split; [reflexivity || assumption|]).
  destruct more; reflexivity.
Qed.

(** X1.  Every record [parse_table] returns has a non-empty major;
    neither its major nor its code holds a whitespace character; its
    Engineering and Basic_Science fields are 0 and it carries no
    detail fields. *)
Theorem parsed_rows_well_formed (table : elt) (category : Category)
    (rows : list Row) (r : Row) :
  parse_table tag_html table category = Ok rows ->
  r ∈ rows ->
  Major r <> "" /\ no_space (Major r) = true /\ no_space (Code r) = true
  /\ Engineering r = 0%Z /\ Basic_Science r = 0%Z /\ details r = None.
Proof.
  intros Ht Hr.
  apply (parse_rows_member tag_html category _ rows Ht) in Hr.
  destruct Hr as (tr & _ & Hp).
  destruct (parse_row_shape category tr r Hp)
    as (td1 & major & rest & _ & Hsplit & -> & -> & HE & HB & Hd & _).
  assert (forall t, t ∈ major :: rest -> t <> "" /\ no_space t = true) as Htok.
  { intros t Hin. rewrite <- Hsplit in Hin.
    apply (split_from_tokens td1 "" t); [reflexivity|exact Hin]. }
  destruct (Htok major) as [Hne Hns]; [left|].
  repeat split; try assumption.
  apply join_no_space, Forall_forall. intros t Hin. apply Htok. right. exact Hin.
Qed.

(** X2.  The Faculty_Course field of a parsed record is FENS, FASS,
    SBS or No; it is No exactly when the record's major and code,
    concatenated, are in none of the faculty lists, and otherwise it
    is the faculty [get_faculty_for_course] names. *)
Theorem parsed_faculty_course (table : elt) (category : Category)
    (rows : list Row) (r : Row) :
  parse_table tag_html table category = Ok rows ->
  r ∈ rows ->
  Faculty_Course r ∈ ["FENS"; "FASS"; "SBS"; "No"]
  /\ (Faculty_Course r = "No" <-> is_faculty_course (Major r) (Code r) = false)
  /\ (forall faculty, get_faculty_for_course (Major r) (Code r) = Some faculty ->
      Faculty_Course r = faculty).
Proof.
  intros Ht Hr.
  apply (parse_rows_member tag_html category _ rows Ht) in Hr.
  destruct Hr as (tr & _ & Hp).
  destruct (parse_row_shape category tr r Hp)
    as (td1 & major & rest & _ & _ & -> & -> & _ & _ & _ & -> & _).
  rewrite is_faculty_course_found.
  destruct (get_faculty_for_course major (join "" rest)) as [f|] eqn:Ef; simpl.
  - pose proof (faculty_is_named _ _ _ Ef) as Hin.
    assert (f = "FENS" \/ f = "FASS" \/ f = "SBS") as Hf.
    { repeat (apply elem_of_cons in Hin; destruct Hin as [Hin|Hin]; [auto|]).
      inversion Hin. }
    split; [|split].
    + destruct Hf as [->|[->| ->]]; repeat constructor.
    + split; [|discriminate]. intros ->. destruct Hf as [|[|]]; discriminate.
    + intros ? [= <-]. reflexivity.
  - split; [repeat constructor|]. split; [tauto|]. intros ? [=].
Qed.

End Parsed.

(** ** The label extractor and the detail fields *)

Lemma collect_parts_no_break (sibs rest : list node) (started : bool) :
  no_break sibs ->
  collect_parts started (sibs ++ rest)
  = (part_of <$> sibs) ++ collect_parts started rest.
Proof.
  induction 1 as [|sib sibs Hsib _ IH]; [reflexivity|].
  simpl. rewrite Hsib, IH. destruct sib; reflexivity.
Qed.

Lemma extract_detail_text_empty_or_trimmed (soup : node) (label : string) :
  _extract_detail_text soup label = "" \/ trimmed (_extract_detail_text soup label).
Proof.
  destruct (find_label_span soup label) as [span|] eqn:E.
  - rewrite (extract_detail_text_joined soup label span E).
    destruct (List.filter truthy _) as [|p l] eqn:Ef; [left; reflexivity|].
    right. apply join_trimmed; [|discriminate].
    rewrite <- Ef. apply collect_parts_trimmed.
  - left. unfold _extract_detail_text. rewrite E. reflexivity.
Qed.

(** X4.  What [_extract_detail_text] returns is empty or starts and
    ends with a character that is not whitespace, whatever the
    document and the label; it is empty when no span holds the
    label. *)
Theorem extract_detail_text_trimmed (soup : node) (label : string) :
  (_extract_detail_text soup label = "" \/ trimmed (_extract_detail_text soup label))
  /\ (find_label_span soup label = None -> _extract_detail_text soup label = "").
Proof.
  split; [apply extract_detail_text_empty_or_trimmed|].
  intros E. unfold _extract_detail_text. rewrite E. reflexivity.
Qed.

(** X5.  When the siblings after the label's node hold at least two
    line breaks, [_extract_detail_text] returns the non-empty
    trimmed texts of the siblings before the second break, strings
    and tags alike, joined by single spaces; nothing after the second
    break is read. *)
Theorem extract_reads_up_to_second_break (soup : node) (label : string) (span : elt)
    (before between trailing : list node) (break1 break2 : node) :
  find_label_span soup label = Some span ->
  snd <$> next_siblings soup span
    = before ++ break1 :: between ++ break2 :: trailing ->
  no_break before -> no_break between ->
  name_is "br" break1 = true -> name_is "br" break2 = true ->
  _extract_detail_text soup label
  = join " " (List.filter truthy (part_of <$> (before ++ between))).
Proof.
  intros Hspan Hsibs Hb Hm H1 H2.
  rewrite (extract_detail_text_joined soup label span Hspan), Hsibs.
  rewrite (collect_parts_no_break before _ false Hb). simpl. rewrite H1.
  rewrite (collect_parts_no_break between _ true Hm). simpl. rewrite H2.
  rewrite app_nil_r, fmap_app. reflexivity.
Qed.

(** X6.  With fewer than two line breaks after the label's node the
    extractor reads to the last sibling: it returns the non-empty
    trimmed texts of all siblings that are not breaks, joined by
    single spaces. *)
Theorem extract_reads_to_the_end (soup : node) (label : string) (span : elt)
    (before after_break : list node) (break1 : node) :
  find_label_span soup label = Some span ->
  (snd <$> next_siblings soup span = before ++ break1 :: after_break
   /\ name_is "br" break1 = true
   \/ snd <$> next_siblings soup span = before /\ after_break = []) ->
  no_break before -> no_break after_break ->
  _extract_detail_text soup label
  = join " " (List.filter truthy (part_of <$> (before ++ after_break))).
Proof.
  intros Hspan Hsibs Hb Ha.
  rewrite (extract_detail_text_joined soup label span Hspan).
  destruct Hsibs as [[-> H1]|[-> ->]].
  - rewrite (collect_parts_no_break before _ false Hb). simpl. rewrite H1.
    rewrite <- (app_nil_r after_break) at 1.
    rewrite (collect_parts_no_break after_break [] true Ha). simpl.
    rewrite app_nil_r, fmap_app. reflexivity.
  - rewrite app_nil_r. rewrite <- (app_nil_r before) at 1.
    rewrite (collect_parts_no_break before [] false Hb). simpl.
    rewrite app_nil_r. reflexivity.
Qed.

Lemma get_text_strip_empty_or_trimmed (sep : string) (n : node) :
  get_text_strip sep n = "" \/ trimmed (get_text_strip sep n).
Proof.
  destruct (get_text_strip sep n) eqn:E; [left; reflexivity|].
  right. rewrite <- E. apply get_text_strip_trimmed. rewrite E. reflexivity.
Qed.

Section Details.
Variable http_get : string -> option node.

Lemma last_offered_term_trimmed (soup : node) :
  last_offered_term_in soup = "" \/ trimmed (last_offered_term_in soup).
Proof.
  unfold last_offered_term_in.
  repeat match goal with
         | |- context [match ?x with _ => _ end] => destruct x; auto
         end.
  apply get_text_strip_empty_or_trimmed.
Qed.

(** X7.  [get_course_details] absorbs the failure of either fetch
    on its own: a course page that cannot be fetched leaves the last
    offered term empty, a detail page that cannot be fetched leaves
    prerequisites and corequisites empty, and neither touches the
    other.  Whatever the pages hold, each of the three fields is
    empty or starts and ends with a character that is not
    whitespace. *)
Theorem course_details_fields (term major code : string) :
  let d := get_course_details http_get term major code in
  let last_offered_url :=
    BASE +:+ "sabanci_www.p_get_courses?levl_code=UG&subj_code=" +:+ major
    +:+ "&crse_numb=" +:+ code +:+ "&lang=eng" in
  let detail_url :=
    BASE +:+ "bwckctlg.p_disp_course_detail?cat_term_in=" +:+ term
    +:+ "&subj_code_in=" +:+ major +:+ "&crse_numb_in=" +:+ code in
  (http_get last_offered_url = None -> Last_Offered_Term d = "")
  /\ (http_get detail_url = None -> Prerequisites d = "" /\ Corequisites d = "")
  /\ (forall soup, http_get detail_url = Some soup ->
      Prerequisites d = _extract_detail_text soup "Prerequisites"
      /\ Corequisites d = _extract_detail_text soup "Corequisites")
  /\ (forall soup, http_get last_offered_url = Some soup ->
      Last_Offered_Term d = last_offered_term_in soup)
  /\ (Prerequisites d = "" \/ trimmed (Prerequisites d))
  /\ (Corequisites d = "" \/ trimmed (Corequisites d))
  /\ (Last_Offered_Term d = "" \/ trimmed (Last_Offered_Term d)).
Proof.
  cbv zeta. unfold get_course_details.
  destruct (http_get (BASE +:+ "sabanci_www.p_get_courses?levl_code=UG&subj_code="
                      +:+ major +:+ "&crse_numb=" +:+ code +:+ "&lang=eng"))
    as [page|];
  destruct (http_get (BASE +:+ "bwckctlg.p_disp_course_detail?cat_term_in="
                      +:+ term +:+ "&subj_code_in=" +:+ major
                      +:+ "&crse_numb_in=" +:+ code)) as [detail|];
  simpl; repeat split; try discriminate;
  try (intros ? [= <-]; reflexivity);
  try (match goal with H : Some _ = Some _ |- _ => injection H as <- end; reflexivity);
  auto using extract_detail_text_empty_or_trimmed, last_offered_term_trimmed.
Qed.

End Details.

(** ** The classifiers *)

Lemma lower_char_idempotent (c : ascii) : lower_char (lower_char c) = lower_char c.
Proof.
  destruct c as [[] [] [] [] [] [] [] []]; vm_compute; reflexivity.
Qed.

Lemma lower_idempotent (s : string) : lower (lower s) = lower s.
Proof.
  induction s as [|c s IH]; simpl; [reflexivity|].
  rewrite lower_char_idempotent, IH. reflexivity.
Qed.

(** X8.  [map_category] does not see the case of a title:
    lower-casing the title first gives the same category.  It never
    answers extra_attribute. *)
Theorem map_category_ignores_case (title : string) :
  map_category (lower title) = map_category title
  /\ map_category title <> extra_attribute.
Proof.
  split.
  - unfold map_category. rewrite lower_idempotent. reflexivity.
  - unfold map_category.
    repeat match goal with
           | |- context [if ?b then _ else _] => destruct b
           end; discriminate.
Qed.

(** X9.  For the expand links of a zone, an area code that holds
    _PHL or _MEL is classified core or extra_attribute: the branch
    of lines 373-374 that would make it required is never reached,
    and no area code is classified required unless it holds _REQ. *)
Theorem zone_link_required_needs_REQ (area_code : string) :
  (contains "_PHL" area_code = true \/ contains "_MEL" area_code = true ->
   zone_link_category area_code = core
   \/ zone_link_category area_code = extra_attribute)
  /\ (zone_link_category area_code = required ->
      contains "_REQ" area_code = true).
Proof.
  unfold zone_link_category. split.
  - intros H.
    destruct (contains "_CEL" area_code || contains "_COR" area_code
              || contains "_CE1" area_code || contains "_C1" area_code);
      [left; reflexivity|].
    right.
    destruct H as [-> | ->]; rewrite ?orb_true_r; simpl; reflexivity.
  - destruct (contains "_CEL" area_code || contains "_COR" area_code
              || contains "_CE1" area_code || contains "_C1" area_code);
      [discriminate|].
    destruct (contains "_PHL" area_code) eqn:Ep;
      destruct (contains "_MEL" area_code) eqn:Em;
      rewrite ?orb_true_r, ?orb_false_r; simpl; try discriminate.
    destruct (contains "_CE2" area_code || contains "_C2" area_code);
      [discriminate|].
    destruct (contains "_REQ" area_code); [reflexivity|].
    repeat match goal with
           | |- context [if ?b then _ else _] => destruct b
           end; discriminate.
Qed.

Lemma is_zone_anchor_not_UC (name_attr : string) :
  is_zone_anchor name_attr = true ->
  String.eqb name_attr "UC_FENS" || String.eqb name_attr "UC_FASS" = false.
Proof.
  intros H.
  destruct (String.eqb_spec name_attr "UC_FENS") as [->|_]; [discriminate H|].
  destruct (String.eqb_spec name_attr "UC_FASS") as [->|_]; [discriminate H|].
  reflexivity.
Qed.

(** X10.  An anchor that passes the guard of the zone pass is never
    classified university by its name: the test for the names
    UC_FENS and UC_FASS cannot hold for it, so it is university only
    when its heading text is. *)
Theorem zone_anchor_university_by_title (name_attr category_title : string) :
  is_zone_anchor name_attr = true ->
  anchor_category name_attr category_title = university ->
  map_category category_title = university.
Proof.
  intros Hz. unfold anchor_category. rewrite (is_zone_anchor_not_UC _ Hz).
  repeat match goal with
         | |- context [if ?b then _ else _] => destruct b; try discriminate
         end.
  auto.
Qed.

(** ** The locator and the links *)

Lemma first_such_weaken {A} (f g : A -> bool) (l : list A) :
  (forall x, f x = true -> g x = true) ->
  found (first_such f l) = true -> found (first_such g l) = true.
Proof.
  intros Hfg. unfold first_such.
  induction l as [|x l IH]; simpl; [discriminate|].
  destruct (f x) eqn:Ef.
  - rewrite (Hfg x Ef). reflexivity.
  - intros H. destruct (g x); [reflexivity|]. apply IH, H.
Qed.

Lemma th_mentions_more (words words' : list string) (table : elt) :
  (forall w, w ∈ words -> w ∈ words') ->
  th_mentions words table = true -> th_mentions words' table = true.
Proof.
  intros Hsub. unfold th_mentions, find_string. apply first_such_weaken.
  intros x Hx. apply andb_true_iff in Hx. destruct Hx as [Hn Hs].
  rewrite Hn. simpl. unfold string_matches in *.
  destruct x.2; [discriminate|].
  destruct (dot_string _) as [s|]; [|discriminate].
  apply andb_true_iff in Hs. destruct Hs as [Ht He]. rewrite Ht. simpl.
  apply existsb_exists in He. destruct He as (w & Hw & Hc).
  apply existsb_exists. exists w. split; [|exact Hc].
  apply list_elem_of_In, Hsub, list_elem_of_In, Hw.
Qed.

Lemma find_named (nm : string) (e x : elt) :
  find nm e = Some x -> name_is nm x.2 = true.
Proof.
  unfold find, find_all. intros H.
  apply (first_such_elem (fun y : elt => name_is nm y.2)) in H. tauto.
Qed.

Lemma proximity_scan_shape (soup : node) (n : nat) : forall (current table : elt),
  proximity_scan soup n current = Some table ->
  name_is "table" table.2 = true /\ looks_like_course_table table = true.
Proof.
  induction n as [|n IH]; intros current table H; simpl in H; [discriminate|].
  destruct (find_next soup current) as [next|]; [|discriminate].
  destruct (name_is "table" next.2 && looks_like_course_table next) eqn:E.
  - injection H as <-. apply andb_true_iff, E.
  - eapply IH, H.
Qed.

Lemma sibling_scan_shape (siblings : list elt) (table : elt) :
  sibling_scan siblings = Some table ->
  name_is "table" table.2 = true /\ th_mentions ["Course"; "Name"] table = true.
Proof.
  induction siblings as [|next rest IH]; simpl; [discriminate|].
  destruct (name_is "tr" next.2).
  - destruct (find "table" next) as [nested|] eqn:Ef; [|exact IH].
    destruct (th_mentions ["Course"; "Name"] nested) eqn:Et; [|exact IH].
    intros [= <-]. split; [eapply find_named, Ef|exact Et].
  - destruct (name_is "table" next.2) eqn:En; [|exact IH].
    destruct (th_mentions ["Course"; "Name"] next) eqn:Et; [|exact IH].
    intros [= <-]. auto.
Qed.

Lemma following_tables_named (soup : node) (n : nat) : forall (current table : elt),
  table ∈ following_tables soup n current -> name_is "table" table.2 = true.
Proof.
  induction n as [|n IH]; intros current table H; simpl in H; [inversion H|].
  destruct (find_next_named soup "table" current) as [t|] eqn:Ef; [|inversion H].
  apply elem_of_cons in H. destruct H as [->|H].
  - unfold find_next_named in Ef.
    apply (first_such_elem (fun y : elt => name_is "table" y.2)) in Ef. tauto.
  - eapply IH, H.
Qed.

(** X11.  Whatever the three methods of the locator settle on is a
    table tag, and it has a header cell mentioning Course, Name, ECTS
    or SU Credits, or a row after its first whose second cell reads
    as a course code. *)
Theorem located_table_shape (soup : node) (a table : elt) :
  locate_table soup a = Some table ->
  name_is "table" table.2 = true /\ looks_like_course_table table = true.
Proof.
  unfold locate_table.
  destruct (proximity_scan soup 10 a) as [t|] eqn:E1.
  { intros [= <-]. eapply proximity_scan_shape, E1. }
  assert (forall ws, (forall w, w ∈ ws -> w ∈ ["Course"; "Name"; "ECTS"; "SU Credits"]) ->
            th_mentions ws table = true -> looks_like_course_table table = true)
    as Hlook.
  { intros ws Hsub Ht. unfold looks_like_course_table.
    rewrite (th_mentions_more ws _ table Hsub Ht). reflexivity. }
  destruct (match find_parent soup "table" a with
            | Some parent_table => sibling_scan (find_next_siblings soup parent_table)
            | None => None
            end) as [t|] eqn:E2.
  - intros [= <-]. destruct (find_parent soup "table" a); [|discriminate].
    apply sibling_scan_shape in E2. destruct E2 as [Hn Ht]. split; [exact Hn|].
    apply (Hlook ["Course"; "Name"]); [|exact Ht].
    intros w Hw. repeat (apply elem_of_cons in Hw; destruct Hw as [->|Hw];
                         [repeat constructor|]). inversion Hw.
  - intros H. apply first_such_elem in H. destruct H as [Hin Ht]. split.
    + eapply following_tables_named, Hin.
    + apply (Hlook ["Course"; "Name"; "ECTS"]); [|exact Ht].
      intros w Hw. repeat (apply elem_of_cons in Hw; destruct Hw as [->|Hw];
                           [repeat constructor|]). inversion Hw.
Qed.

Lemma is_list_link_href (n : node) :
  is_list_link n = true ->
  name_is "a" n = true
  /\ exists h, get_attr "href" n = Some h /\ h <> ""
               /\ contains "p_list_courses" h = true.
Proof.
  unfold is_list_link. intros H. apply andb_true_iff in H. destruct H as [Hn Hh].
  split; [exact Hn|]. destruct (get_attr "href" n) as [h|]; [|discriminate].
  apply andb_true_iff in Hh. destruct Hh as [Ht Hc].
  exists h. split; [reflexivity|]. split; [|exact Hc].
  destruct h; [discriminate|discriminate].
Qed.

Lemma find_list_links_are_links (e link : elt) :
  link ∈ find_list_links e -> is_list_link link.2 = true.
Proof.
  unfold find_list_links. intros H.
  apply list_elem_of_In, filter_In in H. tauto.
Qed.

Lemma forward_links_are_links (soup : node) (n : nat) : forall (current link : elt),
  link ∈ forward_links soup n current -> is_list_link link.2 = true.
Proof.
  induction n as [|n IH]; intros current link H; simpl in H; [inversion H|].
  destruct (find_next soup current) as [next|]; [|inversion H].
  apply elem_of_app in H. destruct H as [H|H]; [|eapply IH, H].
  destruct (is_list_link next.2) eqn:E; [|inversion H].
  apply list_elem_of_singleton in H. subst. exact E.
Qed.

(** X12.  Every link the zone pass or the sweep follows is an [a]
    tag with a non-empty href that holds p_list_courses: reading
    [link['href']] cannot fail. *)
Theorem followed_links_have_href (soup : node) (a link : elt) :
  link ∈ zone_links soup a \/ link ∈ find_list_links (root soup) ->
  name_is "a" link.2 = true
  /\ exists h, get_attr "href" link.2 = Some h /\ h <> ""
               /\ contains "p_list_courses" h = true /\ href_of link = h.
Proof.
  intros H.
  assert (is_list_link link.2 = true) as Hl.
  { destruct H as [H|H]; [|eapply find_list_links_are_links, H].
    unfold zone_links in H.
    assert (forall links, link ∈ links ->
              links = match find_parent soup "table" a with
                      | Some parent_table => find_list_links parent_table
                      | None => []
                      end -> is_list_link link.2 = true) as Hp.
    { intros links Hin ->. destruct (find_parent soup "table" a); [|inversion Hin].
      eapply find_list_links_are_links, Hin. }
    destruct (match find_parent soup "table" a with
              | Some parent_table => find_list_links parent_table
              | None => []
              end) as [|l0 ls] eqn:El.
    - destruct (parent soup a) as [par|]; [|inversion H].
      apply elem_of_app in H. destruct H as [H|H].
      + apply list_elem_of_In, in_flat_map in H. destruct H as (sib & _ & H).
        eapply find_list_links_are_links, list_elem_of_In, H.
      + eapply forward_links_are_links, H.
    - apply (Hp (l0 :: ls) H). reflexivity. }
  apply is_list_link_href in Hl. destruct Hl as (Hn & h & Hh & Hne & Hc).
  split; [exact Hn|]. exists h. unfold href_of. rewrite Hh. auto.
Qed.

Section List.
Variable http_get : string -> option node.
Variable tag_html : node -> string.

(** X13.  [crawl_list] raises exactly when the page cannot be
    fetched, and then it is the request error; a fetched page always
    gives a list of rows, the empty one when the page has no table. *)
Theorem crawl_list_outcome (url : string) (category : Category) :
  match http_get url with
  | None => crawl_list http_get tag_html url category = Raise RequestException
  | Some soup =>
      exists rows,
        crawl_list http_get tag_html url category = Ok rows
        /\ (find "table" (root soup) = None -> rows = [])
  end.
Proof.
  unfold crawl_list. destruct (http_get url) as [soup|]; [|reflexivity].
  destruct (find "table" (root soup)) as [table|].
  - destruct (parse_table_total tag_html table category) as (rows & ->).
    exists rows. split; [reflexivity|discriminate].
  - exists []. auto.
Qed.

Lemma parse_row_same_course (c1 c2 : Category) (tr : elt) (o1 o2 : option Row) :
  parse_row tag_html c1 tr = Ok o1 -> parse_row tag_html c2 tr = Ok o2 ->
  course_id <$> o1 = course_id <$> o2.
Proof.
  unfold parse_row.
  destruct (_ <$> find_all "td" tr) as [|td0 [|td1 [|td2 [|td3 [|td4 more]]]]];
    try (intros [= <-] [= <-]; reflexivity).
  destruct (truthy td1); [|intros [= <-] [= <-]; reflexivity].
  destruct (split _) as [|major rest]; [discriminate|].
  intros [= <-] [= <-]. reflexivity.
Qed.

Lemma parse_rows_same_courses (c1 c2 : Category) (trs : list elt) :
  forall rows1 rows2,
  parse_rows tag_html c1 trs = Ok rows1 -> parse_rows tag_html c2 trs = Ok rows2 ->
  course_id <$> rows1 = course_id <$> rows2.
Proof.
  induction trs as [|tr trs IH]; intros rows1 rows2; simpl.
  - intros [= <-] [= <-]. reflexivity.
  - destruct (parse_row tag_html c1 tr) as [o1|] eqn:E1; [|discriminate].
    destruct (parse_row tag_html c2 tr) as [o2|] eqn:E2; [|discriminate].
    simpl.
    destruct (parse_rows tag_html c1 trs) as [r1|]; [|discriminate].
    destruct (parse_rows tag_html c2 trs) as [r2|]; [|discriminate].
    simpl. intros [= <-] [= <-]. rewrite !fmap_app, (IH r1 r2 eq_refl eq_refl).
    pose proof (parse_row_same_course c1 c2 tr o1 o2 E1 E2) as E.
    destruct o1, o2; simpl in *; try discriminate; [|reflexivity].
    injection E as ->. reflexivity.
Qed.

Lemma crawl_list_same_courses (url : string) (c1 c2 : Category)
    (rows1 rows2 : list Row) :
  crawl_list http_get tag_html url c1 = Ok rows1 ->
  crawl_list http_get tag_html url c2 = Ok rows2 ->
  course_id <$> rows1 = course_id <$> rows2.
Proof.
  unfold crawl_list. destruct (http_get url) as [soup|]; [|discriminate].
  destruct (find "table" (root soup)) as [table|].
  - apply parse_rows_same_courses.
  - intros [= <-] [= <-]. reflexivity.
Qed.

End List.

(** ** Merging, once more *)

Lemma add_row_seen (st : state) (row : Row) :
  course_id row ∈ seen_courses (add_row st row)
  /\ seen_courses st ⊆ seen_courses (add_row st row).
Proof.
  unfold add_row.
  destruct (bool_decide (course_id row ∈ seen_courses st)) eqn:E; simpl.
  - apply bool_decide_eq_true in E. split; [exact E|reflexivity].
  - split; [apply elem_of_union; right; apply elem_of_singleton; reflexivity|].
    intros x Hx. apply elem_of_union. left. exact Hx.
Qed.

Lemma merge_rows_grows (rows : list Row) : forall st,
  seen_courses st ⊆ seen_courses (merge_rows rows st).
Proof.
  unfold merge_rows. induction rows as [|row rows IH]; intros st; simpl;
    [reflexivity|].
  transitivity (seen_courses (add_row st row)); [apply add_row_seen|apply IH].
Qed.

Lemma merge_rows_known (rows : list Row) (st : state) :
  (forall r, r ∈ rows -> course_id r ∈ seen_courses st) ->
  merge_rows rows st = st.
Proof.
  unfold merge_rows. induction rows as [|row rows IH]; intros H; simpl;
    [reflexivity|].
  assert (add_row st row = st) as ->.
  { unfold add_row. rewrite bool_decide_eq_true_2; [reflexivity|]. apply H. left. }
  apply IH. intros r Hr. apply H. right. exact Hr.
Qed.

(** X14.  Merging a batch puts the concatenated major and code of
    each of its rows among the seen courses, and never forgets one
    already seen; merging rows whose courses are all seen changes
    nothing, so merging a batch a second time adds no record. *)
Theorem merge_rows_once (rows : list Row) (st : state) :
  (forall r, r ∈ rows -> course_id r ∈ seen_courses (merge_rows rows st))
  /\ seen_courses st ⊆ seen_courses (merge_rows rows st)
  /\ (forall later, (forall r, r ∈ later -> exists r', r' ∈ rows /\ course_id r = course_id r') ->
      merge_rows later (merge_rows rows st) = merge_rows rows st).
Proof.
  assert (forall r, r ∈ rows -> course_id r ∈ seen_courses (merge_rows rows st)) as H1.
  { revert st. unfold merge_rows.
    induction rows as [|row rows IH]; intros st r Hr; [inversion Hr|].
    simpl. apply elem_of_cons in Hr. destruct Hr as [->|Hr]; [|apply IH, Hr].
    apply (merge_rows_grows rows (add_row st row)).
    exact (proj1 (add_row_seen st row)). }
  split; [exact H1|]. split; [apply merge_rows_grows|].
  intros later Hl. apply merge_rows_known.
  intros r Hr. destruct (Hl r Hr) as (r' & Hr' & ->). apply H1, Hr'.
Qed.

Lemma first_occurrences_snoc (stream : list Row) (x : Row) :
  first_occurrences (stream ++ [x])
  = first_occurrences stream
    ++ (if mem (course_id x) (course_id <$> stream) then [] else [x]).
Proof.
  induction stream as [|y stream IH]; [reflexivity|].
  cbn [app first_occurrences fmap list_fmap]. rewrite IH, List.filter_app.
  change (mem (course_id x) (course_id y :: (course_id <$> stream)))
    with (String.eqb (course_id x) (course_id y)
          || mem (course_id x) (course_id <$> stream)).
  cbn [app]. f_equal. f_equal.
  destruct (mem (course_id x) (course_id <$> stream)); simpl.
  - rewrite orb_true_r. reflexivity.
  - rewrite orb_false_r. destruct (String.eqb (course_id x) (course_id y));
      reflexivity.
Qed.

Lemma mem_elem_of (x : string) (l : list string) : mem x l = true <-> x ∈ l.
Proof.
  unfold mem. rewrite existsb_exists. split.
  - intros (y & Hy & E). apply String.eqb_eq in E. subst. apply list_elem_of_In, Hy.
  - intros H. exists x. split; [apply list_elem_of_In, H|apply String.eqb_refl].
Qed.


Lemma holds_add_row (st : state) (stream : list Row) (row : Row) :
  holds_first_occurrences st stream ->
  holds_first_occurrences (add_row st row) (stream ++ [row]).
Proof.
  intros [Hr Hs]. unfold holds_first_occurrences.
  rewrite first_occurrences_snoc, fmap_app. unfold add_row.
  destruct (bool_decide (course_id row ∈ seen_courses st)) eqn:E.
  - apply bool_decide_eq_true in E.
    rewrite (proj2 (mem_elem_of _ _) (proj1 (Hs _) E)), app_nil_r.
    split; [exact Hr|]. intros id. rewrite elem_of_app, <- Hs. split; [auto|].
    intros [H|H]; [exact H|]. apply list_elem_of_singleton in H. subst. exact E.
  - apply bool_decide_eq_false in E.
    destruct (mem (course_id row) (course_id <$> stream)) eqn:Em.
    { exfalso. apply E, Hs, mem_elem_of, Em. }
    simpl. split; [rewrite Hr; reflexivity|].
    intros id. rewrite elem_of_union, elem_of_singleton, elem_of_app, Hs.
    split; (intros [H|H]; [left; exact H|right]).
    + subst. left.
    + apply list_elem_of_singleton in H. exact H.
Qed.

Lemma holds_merge_rows (rows : list Row) : forall (st : state) (stream : list Row),
  holds_first_occurrences st stream ->
  holds_first_occurrences (merge_rows rows st) (stream ++ rows).
Proof.
  unfold merge_rows. induction rows as [|row rows IH]; intros st stream H; simpl.
  - rewrite app_nil_r. exact H.
  - replace (stream ++ row :: rows) with ((stream ++ [row]) ++ rows)
      by (rewrite <- app_assoc; reflexivity).
    apply IH, holds_add_row, H.
Qed.

(** ** Invariants of a run *)

Section Invariants.
Variable http_get : string -> option node.
Variable urljoin : string -> string -> string.
Variable tag_html : node -> string.

(** What holds at the start and is kept by entering a zone and by
    merging a batch holds at the end of a run. *)
Section Kept.
Variable I : state -> Prop.
Hypothesis kept_zone : forall st a c, I st -> I (record (zone_entered a c) st).
Hypothesis kept_rows : forall st src c new_rows,
  I st -> I (merge_rows new_rows (record (rows_parsed src c new_rows) st)).

Lemma follow_links_keeps (a : elt) (links : list elt) :
  forall (el_type : Category) (st st' : state),
  follow_links http_get urljoin tag_html a el_type links st = Ok st' ->
  I st -> I st'.
Proof using kept_rows.
  induction links as [|link rest IH]; intros el_type st st' H Hst; simpl in H.
  - injection H as <-. exact Hst.
  - destruct (crawl_list _ _ _ _) as [new_rows|]; [|discriminate]. simpl in H.
    eapply IH; [exact H|]. apply kept_rows, Hst.
Qed.

Lemma visit_anchor_keeps (soup : node) (st : state) (a : elt) (st' : state) :
  visit_anchor http_get urljoin tag_html soup st a = Ok st' -> I st -> I st'.
Proof using kept_zone kept_rows.
  unfold visit_anchor. destruct (is_zone_anchor _); simpl.
  2:{ intros [= <-]. auto. }
  destruct (locate_table soup a) as [table|].
  - destruct (parse_table tag_html table _) as [new_rows|]; [|discriminate].
    simpl. intros H Hst. eapply follow_links_keeps; [exact H|].
    apply kept_rows, kept_zone, Hst.
  - simpl. intros H Hst. eapply follow_links_keeps; [exact H|].
    apply kept_zone, Hst.
Qed.

Lemma visit_click_link_keeps (st : state) (link : elt) (st' : state) :
  visit_click_link http_get urljoin tag_html st link = Ok st' -> I st -> I st'.
Proof using kept_rows.
  unfold visit_click_link. destruct (area_code_of _); [|intros [= <-]; auto].
  destruct (crawl_list _ _ _ _) as [new_rows|]; [|discriminate].
  simpl. intros [= <-] Hst. apply kept_rows, Hst.
Qed.

Lemma for_each_keeps {A} (body : state -> A -> result state) :
  (forall st x st', body st x = Ok st' -> I st -> I st') ->
  forall (l : list A) (st st' : state),
  for_each body l st = Ok st' -> I st -> I st'.
Proof using Type.
  intros Hbody. induction l as [|x l IH]; intros st st' H Hst; simpl in H.
  - injection H as <-. exact Hst.
  - destruct (body st x) as [st1|] eqn:Eb; [|discriminate]. simpl in H.
    eapply IH; [exact H|]. eapply Hbody; eassumption.
Qed.

Lemma crawl_page_keeps (soup : node) (st : state) :
  I initial_state ->
  crawl_page http_get urljoin tag_html soup = Ok st -> I st.
Proof using kept_zone kept_rows.
  unfold crawl_page. intros H0 H.
  destruct (for_each (visit_anchor _ _ _ soup) _ _) as [st1|] eqn:E1; [|discriminate].
  simpl in H.
  eapply (for_each_keeps _ visit_click_link_keeps); [exact H|].
  eapply (for_each_keeps _ (visit_anchor_keeps soup)); [exact E1|exact H0].
Qed.

End Kept.

(** X15.  The records of a run, before the detail fields are added,
    are the rows the passes produced with every row dropped whose
    concatenated major and code was produced earlier, in the order
    of production; the list [crawl_program] returns is that list
    with the detail fields added row by row, so it has as many
    records as the passes produced distinct courses. *)
Theorem results_are_first_occurrences (code term : string) (st : state) :
  crawl_program_state http_get urljoin tag_html code term = Ok st ->
  results st = first_occurrences (produced (trace st))
  /\ crawl_program http_get urljoin tag_html code term
     = Ok (add_details http_get term <$> first_occurrences (produced (trace st))).
Proof.
  intros Hst.
  assert (holds_first_occurrences st (produced (trace st))) as [Hr _].
  { apply crawl_program_state_page in Hst. destruct Hst as (soup & _ & Hpage).
    revert Hpage.
    apply (crawl_page_keeps
             (fun st => holds_first_occurrences st (produced (trace st)))).
    - intros st0 a c [Hr Hs]. split; simpl; rewrite produced_snoc; simpl;
        rewrite app_nil_r; assumption.
    - intros st0 src c rows H. rewrite trace_merge_rows. simpl.
      rewrite produced_snoc. simpl. rewrite app_nil_r.
      apply holds_merge_rows. exact H.
    - split; [reflexivity|]. intros id. split; intros H; [set_solver|inversion H]. }
  split; [exact Hr|]. unfold crawl_program. rewrite Hst. simpl. rewrite Hr.
  reflexivity.
Qed.

(** X17.  The sweep never classifies a link extra_attribute, so a
    record stored with that category was produced by a zone, from
    its table or one of its expand links, and was parsed under that
    category. *)
Theorem extra_attribute_comes_from_zones (code term : string) (st : state) (r : Row) :
  crawl_program_state http_get urljoin tag_html code term = Ok st ->
  r ∈ results st ->
  EL_Type r = extra_attribute ->
  exists src new_rows,
    rows_parsed src extra_attribute new_rows ∈ trace st
    /\ r ∈ new_rows
    /\ forall href, src <> from_sweep_link href.
Proof.
  intros Hst Hr Hel.
  apply crawl_program_state_page in Hst. destruct Hst as (soup & _ & Hpage).
  destruct (results_without_details _ _ _ soup st r Hpage Hr) as [Hp _].
  destruct (produced_elem _ _ Hp) as (src & c & rows & Hev & Hin).
  pose proof (crawl_page_sound _ _ _ soup st Hpage _ Hev) as Hs. simpl in Hs.
  destruct (Hs r Hin) as [_ [Hc|[_ Hc]]]; [|congruence].
  rewrite Hel in Hc. subst c.
  exists src, rows. split; [exact Hev|]. split; [exact Hin|].
  intros href ->.
  destruct (crawl_page_run _ _ _ soup st Hpage) as (zs & ss & Hz & Hss & Htr & _).
  rewrite Htr in Hev. apply elem_of_app in Hev. destruct Hev as [Hev|Hev].
  - destruct (Forall2_concat_elem _ _ _ _ Hz Hev) as (a & evs & _ & Hrun & Hi & _).
    destruct (zone_run_events _ _ _ soup a evs _ Hrun Hi) as [_ []].
  - destruct (Forall2_concat_elem _ _ _ _ Hss Hev) as (l & evs & _ & Hrun & Hi & _).
    destruct (sweep_run_events _ _ _ l evs _ Hrun Hi) as (ac & rows' & _ & E & _).
    injection E as _ Hcat _. revert Hcat. unfold sweep_link_category.
    repeat match goal with
           | |- context [if ?b then _ else _] => destruct b
           end; discriminate.
Qed.

End Invariants.

(** ** The entry point *)

Lemma take_until_amp_no_amp (s : string) : contains "&" (take_until_amp s) = false.
Proof.
  induction s as [|c s IH]; [reflexivity|]. cbn [take_until_amp].
  destruct (Ascii.eqb_spec c "&"%char) as [->|Hc]; [reflexivity|].
  change (contains "&" (String c (take_until_amp s)))
    with (Ascii.eqb "&"%char c && true || contains "&" (take_until_amp s)).
  rewrite IH.
  destruct (Ascii.eqb_spec "&"%char c) as [E|_]; [symmetry in E; contradiction|].
  reflexivity.
Qed.

Lemma search_param_value (key s v : string) :
  search_param key s = Some v -> v <> "" /\ contains "&" v = false.
Proof.
  induction s as [|c s IH]; simpl.
  - destruct (startswith key ""); [|discriminate].
    destruct (is_empty (take_until_amp _)) eqn:E; [discriminate|].
    intros [= <-]. split; [intros E'; rewrite E' in E; discriminate|].
    apply take_until_amp_no_amp.
  - destruct (startswith key (String c s)).
    + destruct (is_empty (take_until_amp _)) eqn:E; [exact IH|].
      intros [= <-]. split; [intros E'; rewrite E' in E; discriminate|].
      apply take_until_amp_no_amp.
    + exact IH.
Qed.

(** X18.  The dictionary [get_program_codes] builds maps a program
    code to the text of the last program link of the page whose href
    gives that code, and holds no other key; a key is never empty
    and never holds an ampersand. *)
Theorem program_codes_lookup (soup : node) (program : string) :
  program_codes_in soup !! program
  = (fun a : elt => get_text_strip "" a.2)
    <$> last (List.filter
                (fun a : elt =>
                   bool_decide (search_param "P_PROGRAM=" (href_of a) = Some program))
                (select_program_anchors soup))
  /\ (is_Some (program_codes_in soup !! program) ->
      program <> "" /\ contains "&" program = false).
Proof.
  unfold program_codes_in.
  assert (forall l : list elt,
            foldl add_program_code ∅ l !! program
            = (fun a : elt => get_text_strip "" a.2)
              <$> last (List.filter
                          (fun a : elt =>
                             bool_decide (search_param "P_PROGRAM=" (href_of a)
                                          = Some program)) l)) as H.
  { induction l as [|a l IH] using rev_ind; [reflexivity|].
    rewrite foldl_app, List.filter_app, last_app. simpl.
    unfold add_program_code at 1.
    destruct (search_param "P_PROGRAM=" (href_of a)) as [p|] eqn:Ep.
    - destruct (decide (p = program)) as [->|Hne].
      + rewrite lookup_insert_eq, bool_decide_eq_true_2 by reflexivity. reflexivity.
      + rewrite lookup_insert_ne by exact Hne.
        rewrite bool_decide_eq_false_2 by congruence. simpl. exact IH.
    - rewrite bool_decide_eq_false_2 by congruence. simpl. exact IH. }
  split; [apply H|].
  rewrite H. intros [t Ht].
  destruct (last _) as [a|] eqn:El; [|discriminate].
  apply last_Some_elem_of, list_elem_of_In, filter_In in El.
  destruct El as [_ El]. apply bool_decide_eq_true in El.
  eapply search_param_value, El.
Qed.

Section Entry.
Variable http_get : string -> option node.
Variable urljoin : string -> string -> string.
Variable tag_html : node -> string.
Variable makedirs : string -> bool.
Variable dump : string -> list Row -> bool.




(** X20.  Once the rows of a page have been merged, merging the rows
    of the same page again changes nothing, whatever category either
    fetch parsed it under: a link followed by a zone and met again by
    the sweep adds no record. *)
Theorem refetching_adds_nothing (url : string) (c1 c2 : Category)
    (rows1 rows2 : list Row) (st : state) :
  crawl_list http_get tag_html url c1 = Ok rows1 ->
  crawl_list http_get tag_html url c2 = Ok rows2 ->
  (forall r, r ∈ rows1 -> course_id r ∈ seen_courses st) ->
  merge_rows rows2 st = st.
Proof.
  intros H1 H2 Hseen. apply merge_rows_known. intros r Hr.
  assert (course_id r ∈ course_id <$> rows1) as Hin.
  { rewrite (crawl_list_same_courses http_get tag_html url c1 c2 rows1 rows2 H1 H2).
    apply list_elem_of_fmap. eauto. }
  apply list_elem_of_fmap in Hin. destruct Hin as (r1 & -> & Hr1).
  apply Hseen, Hr1.
Qed.

End Entry.

(** ** The further properties on the samples *)

Ltac seen_by_computation := refine (bool_decide_unpack _ _); vm_compute; exact I.

Lemma parsed_rows_sample :
  Major Sample.math201 <> "" /\ no_space (Major Sample.math201) = true
  /\ no_space (Code Sample.math201) = true
  /\ Engineering Sample.math201 = 0%Z /\ Basic_Science Sample.math201 = 0%Z
  /\ details Sample.math201 = None.
Proof.
  apply (parsed_rows_well_formed Sample.html Sample.the_table required
           Site.required_rows Sample.math201); [by_computation | in_list].
Defined.

Lemma parsed_faculty_sample :
  Faculty_Course Sample.math201 ∈ ["FENS"; "FASS"; "SBS"; "No"].
Proof.
  apply (parsed_faculty_course Sample.html Sample.the_table required
           Site.required_rows Sample.math201); [by_computation | in_list].
Defined.

Lemma extract_two_breaks_sample :
  _extract_detail_text Sample.detail_page "Prerequisites" = "value1 value2".
Proof.
  apply (extract_reads_up_to_second_break Sample.detail_page "Prerequisites"
           Sample.the_span [Text "value1"] [Text "value2"] [Text "trailing"]
           Sample.br Sample.br);
    try by_computation; repeat constructor.
Defined.

Lemma extract_one_break_sample :
  _extract_detail_text Site.one_break_page "Corequisites" = "first second".
Proof.
  apply (extract_reads_to_the_end Site.one_break_page "Corequisites"
           Site.the_one_break_span [Text " first "] [Elem "b" [] [Text "second"]]
           Sample.br);
    [by_computation | left; split; by_computation | repeat constructor
    | repeat constructor].
Defined.

Lemma zone_anchor_university_sample :
  map_category "University Courses" = university.
Proof.
  apply (zone_anchor_university_by_title "main_courses" "University Courses");
    by_computation.
Defined.

Lemma located_table_sample :
  name_is "table" (Sample.the_table).2 = true
  /\ looks_like_course_table Sample.the_table = true.
Proof.
  apply (located_table_shape Sample.page Sample.the_req_anchor Sample.the_table).
  by_computation.
Defined.

Lemma followed_links_sample :
  name_is "a" (Sample.the_plain_link).2 = true
  /\ exists h, get_attr "href" (Sample.the_plain_link).2 = Some h /\ h <> ""
               /\ contains "p_list_courses" h = true
               /\ href_of Sample.the_plain_link = h.
Proof.
  apply (followed_links_have_href Sample.page Sample.the_ael_anchor
           Sample.the_plain_link).
  left. in_list.
Defined.

Lemma first_occurrences_sample :
  results Sample.final_state
  = first_occurrences (produced (trace Sample.final_state)).
Proof.
  apply (results_are_first_occurrences Sample.get Sample.join_url Sample.html
           Sample.program_code Sample.term Sample.final_state).
  by_computation.
Defined.

Lemma extra_attribute_sample :
  exists src new_rows,
    rows_parsed src extra_attribute new_rows ∈ trace Site.zone_state
    /\ Site.cs302 ∈ new_rows
    /\ forall href, src <> from_sweep_link href.
Proof.
  apply (extra_attribute_comes_from_zones Site.get_zone Sample.join_url Sample.html
           Sample.program_code Sample.term Site.zone_state Site.cs302);
    [by_computation | in_list | by_computation].
Defined.


Lemma refetching_sample :
  merge_rows (Site.cel_rows area) Sample.final_state = Sample.final_state.
Proof.
  apply (refetching_adds_nothing Sample.get Sample.html
           (Sample.join_url BASE Sample.href_cel) core area
           (Site.cel_rows core) (Site.cel_rows area) Sample.final_state);
    [by_computation | by_computation |].
  intros r Hr. apply list_elem_of_In in Hr.
  destruct Hr as [<-|[<-|[]]]; seen_by_computation.
Defined.
